(** * The AODVv2 RFC5444 engine of radio-firmware (sys/net/aodvv2/aodvv2.c)

    A shallow embedding of the engine: its process-wide variables become one
    [state] record, every function of the file becomes a function in a small
    state-and-fault monad, and every call that leaves the file (kernel, GNRC
    network stack, RFC5444 codec, AODVv2 tables) is either a field of the
    [Platform] interface, an entry of the effect [trace], or an answer taken
    from an oracle argument when its result is chosen by the environment
    (allocation success, queue delivery, parse result). *)

From stdpp Require Import base gmap list strings sorting.
From Stdlib Require Import ZArith Lia.

Open Scope Z_scope.

(** ** Data shared with the network stack *)

(** An [ipv6_addr_t] is a block of 16 bytes that the engine only copies. *)
Definition ipv6_addr_t : Type := list Byte.byte.

(** [gnrc_nettype_t], restricted to the protocol types the engine names. *)
Inductive gnrc_nettype_t : Type :=
| GNRC_NETTYPE_NETIF
| GNRC_NETTYPE_UNDEF
| GNRC_NETTYPE_IPV6
| GNRC_NETTYPE_UDP.

(** One [gnrc_pktsnip_t] cell.  [snip_id] is its address in the packet
    buffer; [snip_data] is [None] for a NULL data pointer. *)
Record snip : Type := {
  snip_id : positive;
  snip_type : gnrc_nettype_t;
  snip_data : option (list Byte.byte);
  snip_size : Z
}.

(** A [gnrc_pktsnip_t *] is the chain reached through [next]; NULL is [[]]. *)
Definition gnrc_pktsnip_t : Type := list snip.

Record ipv6_hdr_t : Type := { src : ipv6_addr_t; dst : ipv6_addr_t }.

Record gnrc_netif_t : Type := { netif_pid : Z }.

Record gnrc_netreg_entry_t : Type := { demux_ctx : Z; target_pid : Z }.

(** ** The platform interface

    Constants, types and pure queries that aodvv2.c takes from headers of
    the kernel, of GNRC, of the RFC5444 codec and of the other AODVv2
    modules.  Their values are not fixed by aodvv2.c, so the engine is
    modelled over any platform.  The one law is the one the C compiler
    enforces: the case labels of the switch in [_event_loop] are distinct. *)
Class Platform : Type := {
  KERNEL_PID_UNDEF : Z;
  ENOTSUP : Z;
  AODVV2_MSG_TYPE_SEND_RREQ : Z;
  AODVV2_MSG_TYPE_SEND_RREP : Z;
  GNRC_NETAPI_MSG_TYPE_RCV : Z;
  GNRC_NETAPI_MSG_TYPE_GET : Z;
  GNRC_NETAPI_MSG_TYPE_SET : Z;
  GNRC_NETAPI_MSG_TYPE_ACK : Z;
  GNRC_NETREG_DEMUX_CTX_ALL : Z;
  RFC5444_MSGTYPE_RREQ : Z;
  RFC5444_MSGTYPE_RREP : Z;
  RFC5444_OKAY : Z;
  CONFIG_AODVV2_RFC5444_PROTOCOL_PORT : Z;
  CONFIG_AODVV2_RFC5444_PACKET_SIZE : Z;
  CONFIG_AODVV2_RFC5444_ADDR_TLVS_SIZE : Z;
  CONFIG_AODVV2_DEFAULT_METRIC : Z;
  METRIC_HOP_COUNT : Z;
  AODVV2_PREFIX_LEN : Z;
  ipv6_addr_all_manet_routers_link_local : ipv6_addr_t;
  (* struct netaddr and the conversion into it *)
  netaddr : Type;
  ipv6_addr_to_netaddr : ipv6_addr_t → netaddr;
  (* metric module *)
  aodvv2_metric_max : Z → Z;
  (* sequence-number store *)
  seqnum_store : Type;
  aodvv2_seqnum_init : seqnum_store → seqnum_store;
  aodvv2_seqnum_get : seqnum_store → Z;
  aodvv2_seqnum_inc : seqnum_store → seqnum_store;
  (* GNRC: the IPv6 header of a received packet, NULL when it has none *)
  gnrc_ipv6_get_header : gnrc_pktsnip_t → option ipv6_hdr_t;
  switch_labels_distinct :
    NoDup [AODVV2_MSG_TYPE_SEND_RREQ; AODVV2_MSG_TYPE_SEND_RREP;
           GNRC_NETAPI_MSG_TYPE_RCV; GNRC_NETAPI_MSG_TYPE_GET;
           GNRC_NETAPI_MSG_TYPE_SET]
}.

Section Engine.
Context {P : Platform}.

(** ** Protocol data (net/aodvv2/rfc5444.h, as far as aodvv2.c uses it)

    The integer fields are [Z]: their C types are declared outside
    aodvv2.c, which only copies them. *)

Record node_data : Type := {
  addr : netaddr;
  metric : Z;
  seqnum : Z
}.

Record aodvv2_packet_data_t : Type := {
  hoplimit : Z;
  metric_type : Z;
  orig_node : node_data;
  targ_node : node_data
}.

(** The heap-boxed message handed to the engine thread. *)
Record aodvv2_msg_t : Type := {
  pkt : aodvv2_packet_data_t;
  next_hop : ipv6_addr_t
}.

(** What [msg_t.content] can hold.  [RawValue] is the [value] member of the
    union, the others are what its [ptr] member points to. *)
Inductive pointer : Type :=
| NullPtr
| HeapPtr (p : positive)
| PktPtr (pk : gnrc_pktsnip_t)
| RawValue (v : Z).

Record msg_t : Type := {
  sender_pid : Z;
  type : Z;
  content : pointer
}.

(** ** The writer context *)

Inductive static_buffer : Type :=
| _writer_msg_buffer
| _writer_msg_addrtlvs
| _writer_pkt_buffer.

Inductive callback : Type := cb_send_packet.

Record rfc5444_writer_target : Type := {
  packet_buffer : option static_buffer;
  packet_size : Z;
  sendPacket : option callback
}.

Record aodvv2_writer_target_t : Type := {
  target : rfc5444_writer_target;
  packet_data : aodvv2_packet_data_t;
  wtype : Z;
  target_addr : ipv6_addr_t
}.

Record rfc5444_writer : Type := {
  msg_buffer : option static_buffer;
  msg_size : Z;
  addrtlv_buffer : option static_buffer;
  addrtlv_size : Z
}.

(** ** Effects that leave the file *)

Inductive mutex_id : Type := _writer_lock | _reader_lock.

Inductive event : Type :=
| EvDebug (text : string)
| EvHexdump (buffer : list Byte.byte)
| EvMutexInit (m : mutex_id)
| EvMutexLock (m : mutex_id)
| EvMutexUnlock (m : mutex_id)
| EvThreadCreate (name : string)
| EvNetapiGet (pid : Z)
| EvSeqnumInit
| EvRoutingtableInit
| EvClientInit
| EvRreqtableInit
| EvClientAdd (a : ipv6_addr_t) (prefix_len : Z) (metric_kind : Z)
| EvNetregRegister (nt : gnrc_nettype_t) (e : gnrc_netreg_entry_t)
| EvReaderInit
| EvReaderRrepRegister
| EvReaderRreqRegister
| EvWriterInit (w : rfc5444_writer)
| EvWriterRegisterTarget
| EvWriterRegister
| EvRreqtableAdd (pd : aodvv2_packet_data_t)
| EvMsgInitQueue
| EvMsgSend (mtype : Z) (mcontent : pointer) (to : Z)
| EvMsgReply (m : msg_t) (rtype : Z) (rcontent : pointer)
| EvFree (p : positive)
| EvWriterCreateMessage (msgtype : Z)
| EvWriterFlush
| EvUdpHdrBuild (src_port dst_port : Z)
| EvIpv6HdrBuild (dst_addr : ipv6_addr_t)
| EvNetifHdrSetNetif (netif : option gnrc_netif_t)
| EvDispatchSend (nt : gnrc_nettype_t) (ctx : Z) (pk : gnrc_pktsnip_t)
| EvPktbufRelease (pk : gnrc_pktsnip_t)
| EvHandlePacketPrepare (sender : ipv6_addr_t)
| EvReaderHandlePacket (data : list Byte.byte) (size : Z).

(** ** The engine's variables *)

Record state : Type := {
  _pid : Z;
  _netif : option gnrc_netif_t;
  _na_netif : netaddr;
  netreg : gnrc_netreg_entry_t;
  _writer : rfc5444_writer;
  _writer_context : aodvv2_writer_target_t;
  (* collaborators whose content the engine reads or owns *)
  seqnum_st : seqnum_store;
  heap : gmap positive aodvv2_msg_t;
  pktbuf : gmap positive nat;
  trace : list event
}.

Definition set_pid (v : Z) (s : state) : state :=
  {| _pid := v; _netif := _netif s; _na_netif := _na_netif s;
     netreg := netreg s; _writer := _writer s;
     _writer_context := _writer_context s; seqnum_st := seqnum_st s;
     heap := heap s; pktbuf := pktbuf s; trace := trace s |}.

Definition set_netif (v : option gnrc_netif_t) (s : state) : state :=
  {| _pid := _pid s; _netif := v; _na_netif := _na_netif s;
     netreg := netreg s; _writer := _writer s;
     _writer_context := _writer_context s; seqnum_st := seqnum_st s;
     heap := heap s; pktbuf := pktbuf s; trace := trace s |}.

Definition set_na_netif (v : netaddr) (s : state) : state :=
  {| _pid := _pid s; _netif := _netif s; _na_netif := v;
     netreg := netreg s; _writer := _writer s;
     _writer_context := _writer_context s; seqnum_st := seqnum_st s;
     heap := heap s; pktbuf := pktbuf s; trace := trace s |}.

Definition set_netreg (v : gnrc_netreg_entry_t) (s : state) : state :=
  {| _pid := _pid s; _netif := _netif s; _na_netif := _na_netif s;
     netreg := v; _writer := _writer s;
     _writer_context := _writer_context s; seqnum_st := seqnum_st s;
     heap := heap s; pktbuf := pktbuf s; trace := trace s |}.

Definition set_writer (v : rfc5444_writer) (s : state) : state :=
  {| _pid := _pid s; _netif := _netif s; _na_netif := _na_netif s;
     netreg := netreg s; _writer := v;
     _writer_context := _writer_context s; seqnum_st := seqnum_st s;
     heap := heap s; pktbuf := pktbuf s; trace := trace s |}.

Definition set_writer_context (v : aodvv2_writer_target_t) (s : state) : state :=
  {| _pid := _pid s; _netif := _netif s; _na_netif := _na_netif s;
     netreg := netreg s; _writer := _writer s;
     _writer_context := v; seqnum_st := seqnum_st s;
     heap := heap s; pktbuf := pktbuf s; trace := trace s |}.

Definition set_seqnum_st (v : seqnum_store) (s : state) : state :=
  {| _pid := _pid s; _netif := _netif s; _na_netif := _na_netif s;
     netreg := netreg s; _writer := _writer s;
     _writer_context := _writer_context s; seqnum_st := v;
     heap := heap s; pktbuf := pktbuf s; trace := trace s |}.

Definition set_heap (v : gmap positive aodvv2_msg_t) (s : state) : state :=
  {| _pid := _pid s; _netif := _netif s; _na_netif := _na_netif s;
     netreg := netreg s; _writer := _writer s;
     _writer_context := _writer_context s; seqnum_st := seqnum_st s;
     heap := v; pktbuf := pktbuf s; trace := trace s |}.

Definition set_pktbuf (v : gmap positive nat) (s : state) : state :=
  {| _pid := _pid s; _netif := _netif s; _na_netif := _na_netif s;
     netreg := netreg s; _writer := _writer s;
     _writer_context := _writer_context s; seqnum_st := seqnum_st s;
     heap := heap s; pktbuf := v; trace := trace s |}.

Definition set_trace (v : list event) (s : state) : state :=
  {| _pid := _pid s; _netif := _netif s; _na_netif := _na_netif s;
     netreg := netreg s; _writer := _writer s;
     _writer_context := _writer_context s; seqnum_st := seqnum_st s;
     heap := heap s; pktbuf := pktbuf s; trace := v |}.

(** ** The monad: state passing with fatal faults

    A fault ends the run and keeps the state in which it happened. *)

Inductive fault : Type :=
| AssertionFailure   (* assert() fired *)
| NullDereference    (* a NULL pointer was dereferenced *)
| InvalidPointer.    (* a pointer that is not a live block was used *)

Inductive result (A : Type) : Type :=
| Ok (a : A) (s : state)
| Fault (f : fault) (s : state).
Arguments Ok {A} a s.
Arguments Fault {A} f s.

Definition M (A : Type) : Type := state → result A.

#[global] Instance M_ret : MRet M := λ A a s, Ok a s.
#[global] Instance M_bind : MBind M := λ A B k m s,
  match m s with
  | Ok a s' => k a s'
  | Fault f s' => Fault f s'
  end.

(** The state a run ends in, whether it returned or faulted. *)
Definition final {A : Type} (r : result A) : state :=
  match r with
  | Ok _ s => s
  | Fault _ s => s
  end.

Definition gets {A : Type} (f : state → A) : M A := λ s, Ok (f s) s.
Definition modify (f : state → state) : M unit := λ s, Ok tt (f s).
Definition raise {A : Type} (f : fault) : M A := λ s, Fault f s.

Definition emit (e : event) : M unit :=
  modify (λ s, set_trace (trace s ++ [e]) s).

Definition assert (b : bool) : M unit :=
  if b then mret tt else raise AssertionFailure.

(** [DEBUG(...)] with ENABLE_DEBUG set to 1. *)
Definition DEBUG (text : string) : M unit := emit (EvDebug text).

(** The mutex calls are kept as effects, in their order.  The model runs one
    thread: what another thread does between two calls is not part of it. *)
Definition mutex_init (m : mutex_id) : M unit := emit (EvMutexInit m).
Definition mutex_lock (m : mutex_id) : M unit := emit (EvMutexLock m).
Definition mutex_unlock (m : mutex_id) : M unit := emit (EvMutexUnlock m).

(** ** Pointers and the two allocators

    A pointer argument is an [option]: [None] is NULL.  An argument that the
    C code passes on without reading it or testing it is given by value. *)

Definition non_null {A : Type} (p : option A) : bool :=
  match p with Some _ => true | None => false end.

(** Reading through a pointer. *)
Definition deref {A : Type} (p : option A) : M A :=
  match p with
  | Some a => mret a
  | None => raise NullDereference
  end.

(** [malloc(sizeof(aodvv2_msg_t))].  [res] is the environment's answer:
    [None] for NULL, [Some junk] for a fresh block whose bytes are [junk]. *)
Definition malloc (res : option aodvv2_msg_t) : M (option positive) := λ s,
  match res with
  | None => Ok None s
  | Some junk =>
      let p := fresh (dom (heap s)) in
      Ok (Some p) (set_heap (<[p := junk]> (heap s)) s)
  end.

Definition free (p : positive) : M unit := λ s,
  match heap s !! p with
  | Some _ =>
      Ok tt (set_heap (delete p (heap s)) (set_trace (trace s ++ [EvFree p]) s))
  | None => Fault InvalidPointer s
  end.

Definition load (p : positive) : M aodvv2_msg_t := λ s,
  match heap s !! p with
  | Some m => Ok m s
  | None => Fault InvalidPointer s
  end.

Definition store (p : positive) (f : aodvv2_msg_t → aodvv2_msg_t) : M unit := λ s,
  match heap s !! p with
  | Some m => Ok tt (set_heap (<[p := f m]> (heap s)) s)
  | None => Fault InvalidPointer s
  end.

(** The GNRC packet buffer: the users count of every live snip. *)
Definition pktbuf_alloc (next : gnrc_pktsnip_t) (data : option (list Byte.byte))
    (size : Z) (ty : gnrc_nettype_t) : M gnrc_pktsnip_t := λ s,
  let id := fresh (dom (pktbuf s)) in
  Ok ({| snip_id := id; snip_type := ty; snip_data := data; snip_size := size |}
        :: next)
     (set_pktbuf (<[id := 1%nat]> (pktbuf s)) s).

Definition release_snip (m : gmap positive nat) (sn : snip) : gmap positive nat :=
  match m !! snip_id sn with
  | Some (S (S n)) => <[snip_id sn := S n]> m
  | Some _ => delete (snip_id sn) m
  | None => m
  end.

(** [gnrc_pktbuf_release]: one user less on every snip of the chain. *)
Definition gnrc_pktbuf_release (pk : gnrc_pktsnip_t) : M unit :=
  emit (EvPktbufRelease pk);;
  modify (λ s, set_pktbuf (foldl release_snip (pktbuf s) pk) s).

(** The builders answer NULL ([[]]) when the packet buffer is full; that is
    the environment's choice, as are the header bytes they write. *)
Definition gnrc_pktbuf_add (next : gnrc_pktsnip_t) (data : list Byte.byte)
    (size : Z) (ty : gnrc_nettype_t) (ok : bool) : M gnrc_pktsnip_t :=
  if ok then pktbuf_alloc next (Some (take (Z.to_nat size) data)) size ty
  else mret [].

Definition gnrc_udp_hdr_build (payload : gnrc_pktsnip_t) (sport dport : Z)
    (res : option (list Byte.byte)) : M gnrc_pktsnip_t :=
  emit (EvUdpHdrBuild sport dport);;
  match res with
  | Some hdr => pktbuf_alloc payload (Some hdr) (Z.of_nat (length hdr)) GNRC_NETTYPE_UDP
  | None => mret []
  end.

Definition gnrc_ipv6_hdr_build (payload : gnrc_pktsnip_t) (d : ipv6_addr_t)
    (res : option (list Byte.byte)) : M gnrc_pktsnip_t :=
  emit (EvIpv6HdrBuild d);;
  match res with
  | Some hdr => pktbuf_alloc payload (Some hdr) (Z.of_nat (length hdr)) GNRC_NETTYPE_IPV6
  | None => mret []
  end.

Definition gnrc_netif_hdr_build (res : option (list Byte.byte)) : M gnrc_pktsnip_t :=
  match res with
  | Some hdr => pktbuf_alloc [] (Some hdr) (Z.of_nat (length hdr)) GNRC_NETTYPE_NETIF
  | None => mret []
  end.

Definition gnrc_netapi_dispatch_send (nt : gnrc_nettype_t) (ctx : Z)
    (pk : gnrc_pktsnip_t) (res : Z) : M Z :=
  emit (EvDispatchSend nt ctx pk);; mret res.

(** ** The transmission sink *)

(** The value a [uint16_t] variable holds after it is assigned [z]. *)
Definition uint16_t (z : Z) : Z := z mod 2 ^ 16.

Record send_packet_oracle : Type := {
  payload_ok : bool;
  udp_hdr_res : option (list Byte.byte);
  ipv6_hdr_res : option (list Byte.byte);
  netif_hdr_res : option (list Byte.byte);
  dispatch_res : Z
}.

Inductive writer_ref : Type := addr_writer.
Inductive target_ref : Type := addr_writer_context_target.

Definition _send_packet (writer : option writer_ref) (iface : option target_ref)
    (buffer : option (list Byte.byte)) (length : Z) (o : send_packet_oracle)
    : M unit :=
  assert (non_null writer && non_null iface && non_null buffer
          && negb (length =? 0));;
  buf ← deref buffer;
  emit (EvHexdump (take (Z.to_nat length) buf));;
  (* container_of(iface, aodvv2_writer_target_t, target) *)
  ctx ← gets _writer_context;
  payload ← gnrc_pktbuf_add [] buf length GNRC_NETTYPE_UNDEF (payload_ok o);
  match payload with
  | [] => DEBUG "aodvv2: couldn't allocate payload\n"
  | _ :: _ =>
  (* uint16_t port = CONFIG_AODVV2_RFC5444_PROTOCOL_PORT; *)
  let port := uint16_t CONFIG_AODVV2_RFC5444_PROTOCOL_PORT in
  udp ← gnrc_udp_hdr_build payload port port (udp_hdr_res o);
  match udp with
  | [] =>
      DEBUG "aodvv2: unable to allocate UDP header\n";;
      gnrc_pktbuf_release payload
  | _ :: _ =>
  ip ← gnrc_ipv6_hdr_build udp (target_addr ctx) (ipv6_hdr_res o);
  match ip with
  | [] =>
      DEBUG "aodvv2: unable to allocate IPv6 header\n";;
      gnrc_pktbuf_release udp
  | _ :: _ =>
  netif_hdr ← gnrc_netif_hdr_build (netif_hdr_res o);
  (* netif_hdr->data, with no test of netif_hdr *)
  match netif_hdr with
  | [] => raise NullDereference
  | h :: _ =>
  nif ← gets _netif;
  emit (EvNetifHdrSetNetif nif);;
  (* LL_PREPEND(ip, netif_hdr) *)
  let ip := h :: ip in
  res ← gnrc_netapi_dispatch_send GNRC_NETTYPE_UDP GNRC_NETREG_DEMUX_CTX_ALL ip
          (dispatch_res o);
  if res <? 1 then
    DEBUG "aodvv2: unable to locate UDP thread\n";;
    gnrc_pktbuf_release ip
  else mret tt
  end end end end.

(** ** The writer context and the codec's writer

    The codec encodes from [_writer_context] and hands every finished packet
    to the target's [sendPacket].  Which packets come out, and what the
    network stack answers for each, is the environment's choice. *)

Definition flush_oracle : Type := list (list Byte.byte * send_packet_oracle).

Definition rfc5444_writer_create_message_alltarget (msgtype : Z) : M unit :=
  emit (EvWriterCreateMessage msgtype).

Fixpoint send_packets (cb : option callback) (out : flush_oracle) : M unit :=
  match out with
  | [] => mret tt
  | (buf, o) :: rest =>
      f ← deref cb;
      match f with
      | cb_send_packet =>
          _send_packet (Some addr_writer) (Some addr_writer_context_target)
            (Some buf) (Z.of_nat (length buf)) o
      end;;
      send_packets cb rest
  end.

Definition rfc5444_writer_flush (out : flush_oracle) : M unit :=
  emit EvWriterFlush;;
  ctx ← gets _writer_context;
  send_packets (sendPacket (target ctx)) out.

Definition set_packet_data (pd : aodvv2_packet_data_t)
    (c : aodvv2_writer_target_t) : aodvv2_writer_target_t :=
  {| target := target c; packet_data := pd; wtype := wtype c;
     target_addr := target_addr c |}.

Definition set_wtype (t : Z) (c : aodvv2_writer_target_t) : aodvv2_writer_target_t :=
  {| target := target c; packet_data := packet_data c; wtype := t;
     target_addr := target_addr c |}.

Definition set_target_addr (a : ipv6_addr_t)
    (c : aodvv2_writer_target_t) : aodvv2_writer_target_t :=
  {| target := target c; packet_data := packet_data c; wtype := wtype c;
     target_addr := a |}.

Definition set_target (t : rfc5444_writer_target)
    (c : aodvv2_writer_target_t) : aodvv2_writer_target_t :=
  {| target := t; packet_data := packet_data c; wtype := wtype c;
     target_addr := target_addr c |}.

Definition set_hoplimit (h : Z) (pd : aodvv2_packet_data_t) : aodvv2_packet_data_t :=
  {| hoplimit := h; metric_type := metric_type pd; orig_node := orig_node pd;
     targ_node := targ_node pd |}.

Definition update_writer_context
    (f : aodvv2_writer_target_t → aodvv2_writer_target_t) : M unit :=
  modify (λ s, set_writer_context (f (_writer_context s)) s).

Definition _send_rreq (packet_data' : option aodvv2_packet_data_t)
    (next_hop' : option ipv6_addr_t) (out : flush_oracle) : M unit :=
  assert (non_null packet_data' && non_null next_hop');;
  mutex_lock _writer_lock;;
  pd ← deref packet_data';
  update_writer_context (set_packet_data pd);;
  update_writer_context (set_wtype RFC5444_MSGTYPE_RREQ);;
  update_writer_context
    (λ c, set_packet_data (set_hoplimit (hoplimit pd) (packet_data c)) c);;
  nh ← deref next_hop';
  update_writer_context (set_target_addr nh);;
  rfc5444_writer_create_message_alltarget RFC5444_MSGTYPE_RREQ;;
  rfc5444_writer_flush out;;
  mutex_unlock _writer_lock.

Definition _send_rrep (packet_data' : option aodvv2_packet_data_t)
    (next_hop' : option ipv6_addr_t) (out : flush_oracle) : M unit :=
  assert (non_null packet_data' && non_null next_hop');;
  mutex_lock _writer_lock;;
  pd ← deref packet_data';
  update_writer_context (set_packet_data pd);;
  update_writer_context (set_wtype RFC5444_MSGTYPE_RREP);;
  update_writer_context
    (λ c, set_packet_data (set_hoplimit (hoplimit pd) (packet_data c)) c);;
  nh ← deref next_hop';
  update_writer_context (set_target_addr nh);;
  rfc5444_writer_create_message_alltarget RFC5444_MSGTYPE_RREP;;
  rfc5444_writer_flush out;;
  mutex_unlock _writer_lock.

(** ** The reception pipeline *)

Definition aodvv2_rfc5444_handle_packet_prepare (sender : ipv6_addr_t) : M unit :=
  emit (EvHandlePacketPrepare sender).

Definition rfc5444_reader_handle_packet (data : list Byte.byte) (size : Z)
    (res : Z) : M Z :=
  emit (EvReaderHandlePacket data size);; mret res.

Definition _receive (pk : gnrc_pktsnip_t) (parse_res : Z) : M unit :=
  match pk with
  | [] => raise AssertionFailure
  | h :: _ =>
      assert (non_null (snip_data h) && (0 <? snip_size h));;
      data ← deref (snip_data h);
      emit (EvHexdump (take (Z.to_nat (snip_size h)) data));;
      let ipv6_hdr := gnrc_ipv6_get_header pk in
      assert (non_null ipv6_hdr);;
      hdr ← deref ipv6_hdr;
      let sender := src hdr in
      mutex_lock _reader_lock;;
      aodvv2_rfc5444_handle_packet_prepare sender;;
      r ← rfc5444_reader_handle_packet data (snip_size h) parse_res;
      (if negb (r =? RFC5444_OKAY)
       then DEBUG "aodvv2: couldn't handle packet!\n"
       else mret tt);;
      mutex_unlock _reader_lock;;
      gnrc_pktbuf_release pk
  end.

(** ** The engine thread *)

Record step_oracle : Type := {
  flush_out : flush_oracle;
  parse_res : Z
}.

Definition msg_reply (m : msg_t) (rtype : Z) (rcontent : pointer) : M unit :=
  emit (EvMsgReply m rtype rcontent).

(** [(aodvv2_msg_t * )msg.content.ptr], read and freed. *)
Definition take_msg (c : pointer) : M aodvv2_msg_t :=
  match c with
  | HeapPtr p => m ← load p; free p;; mret m
  | NullPtr => raise NullDereference
  | PktPtr _ | RawValue _ => raise InvalidPointer
  end.

(** [(gnrc_pktsnip_t * )msg.content.ptr]. *)
Definition as_pktsnip (c : pointer) : M gnrc_pktsnip_t :=
  match c with
  | PktPtr pk => mret pk
  | NullPtr => mret []
  | HeapPtr _ | RawValue _ => raise InvalidPointer
  end.

(** [(uint32_t)(-ENOTSUP)] *)
Definition reply_value : Z := (- ENOTSUP) mod 2 ^ 32.

(** One turn of the [while (1)] loop, on the message [msg_receive] stored. *)
Definition _event_loop_body (msg : msg_t) (o : step_oracle) : M unit :=
  let t := type msg in
  if t =? AODVV2_MSG_TYPE_SEND_RREQ then
    DEBUG "AODVV2_MSG_TYPE_SEND_RREQ\n";;
    m ← take_msg (content msg);
    _send_rreq (Some (pkt m)) (Some (next_hop m)) (flush_out o)
  else if t =? AODVV2_MSG_TYPE_SEND_RREP then
    DEBUG "AODVV2_MSG_TYPE_SEND_RREP\n";;
    m ← take_msg (content msg);
    _send_rrep (Some (pkt m)) (Some (next_hop m)) (flush_out o)
  else if t =? GNRC_NETAPI_MSG_TYPE_RCV then
    DEBUG "GNRC_NETAPI_MSG_TYPE_RCV\n";;
    pk ← as_pktsnip (content msg);
    _receive pk (parse_res o)
  else if (t =? GNRC_NETAPI_MSG_TYPE_GET) || (t =? GNRC_NETAPI_MSG_TYPE_SET) then
    msg_reply msg GNRC_NETAPI_MSG_TYPE_ACK (RawValue reply_value)
  else
    DEBUG "aodvv2: received unidentified message\n".

(** The loop never ends by itself; a run is the loop taken over the
    messages received so far, in their order of arrival. *)
Fixpoint event_loop_turns (inbox : list (msg_t * step_oracle)) : M unit :=
  match inbox with
  | [] => mret tt
  | (msg, o) :: rest => _event_loop_body msg o;; event_loop_turns rest
  end.

Definition _event_loop (inbox : list (msg_t * step_oracle)) : M unit :=
  emit EvMsgInitQueue;;
  event_loop_turns inbox.

(** ** Initialization *)

Record init_oracle : Type := {
  thread_create_res : Z;      (* a kernel_pid_t: the new PID or a negative errno *)
  netapi_get_res : Z;
  netif_addr : ipv6_addr_t    (* what gnrc_netapi_get wrote into netif_addr *)
}.

Definition thread_create (name : string) (res : Z) : M Z :=
  emit (EvThreadCreate name);; mret res.

Definition gnrc_netapi_get (pid : Z) (res : Z) : M Z :=
  emit (EvNetapiGet pid);; mret res.

Definition aodvv2_init (netif : option gnrc_netif_t) (o : init_oracle) : M Z :=
  assert (non_null netif);;
  pid ← gets _pid;
  (* Check if thread is already running *)
  if negb (pid =? KERNEL_PID_UNDEF) then mret pid else
  mutex_init _writer_lock;;
  mutex_init _reader_lock;;
  tc ← thread_create "aodvv2" (thread_create_res o);
  modify (set_pid tc);;
  pid ← gets _pid;
  if pid <? 0 then mret pid else
  modify (set_netif netif);;
  nif ← gets _netif;
  nif ← deref nif;
  res ← gnrc_netapi_get (netif_pid nif) (netapi_get_res o);
  if res <? 0 then
    DEBUG "aodvv2_init: can't get iface IPv6 address\n";;
    mret (-1)
  else
  modify (set_na_netif (ipv6_addr_to_netaddr (netif_addr o)));;
  (* Initialize AODVv2 internal structures *)
  emit EvSeqnumInit;;
  modify (λ s, set_seqnum_st (aodvv2_seqnum_init (seqnum_st s)) s);;
  emit EvRoutingtableInit;;
  emit EvClientInit;;
  emit EvRreqtableInit;;
  emit (EvClientAdd (netif_addr o) AODVV2_PREFIX_LEN CONFIG_AODVV2_DEFAULT_METRIC);;
  (* Register netreg *)
  pid ← gets _pid;
  modify (set_netreg {| demux_ctx := CONFIG_AODVV2_RFC5444_PROTOCOL_PORT;
                        target_pid := pid |});;
  e ← gets netreg;
  emit (EvNetregRegister GNRC_NETTYPE_UDP e);;
  (* Initialize RFC5444 reader *)
  mutex_lock _reader_lock;;
  emit EvReaderInit;;
  emit EvReaderRrepRegister;;
  emit EvReaderRreqRegister;;
  mutex_unlock _reader_lock;;
  (* Initialize RFC5444 writer *)
  mutex_lock _writer_lock;;
  modify (set_writer
    {| msg_buffer := Some _writer_msg_buffer;
       msg_size := CONFIG_AODVV2_RFC5444_PACKET_SIZE;
       addrtlv_buffer := Some _writer_msg_addrtlvs;
       addrtlv_size := CONFIG_AODVV2_RFC5444_ADDR_TLVS_SIZE |});;
  update_writer_context (set_target
    {| packet_buffer := Some _writer_pkt_buffer;
       packet_size := CONFIG_AODVV2_RFC5444_PACKET_SIZE;
       sendPacket := Some cb_send_packet |});;
  w ← gets _writer;
  emit (EvWriterInit w);;
  emit EvWriterRegisterTarget;;
  emit EvWriterRegister;;
  mutex_unlock _writer_lock;;
  gets _pid.

(** ** The public request API *)

Record send_oracle : Type := {
  malloc_res : option aodvv2_msg_t;
  msg_send_res : Z
}.

Definition msg_send (mtype : Z) (mcontent : pointer) (to : Z) (res : Z) : M Z :=
  emit (EvMsgSend mtype mcontent to);; mret res.

Definition aodvv2_send_rreq (pk : option aodvv2_packet_data_t)
    (next_hop' : option ipv6_addr_t) (o : send_oracle) : M Z :=
  msg ← malloc (malloc_res o);
  match msg with
  | None =>
      DEBUG "aodvv2: out of memory!\n";;
      mret (-1)
  | Some p =>
      (* Set destination address *)
      nh ← deref next_hop';
      store p (λ m, {| pkt := pkt m; next_hop := nh |});;
      (* Copy RREQ packet *)
      pd ← deref pk;
      store p (λ m, {| pkt := pd; next_hop := next_hop m |});;
      (* Prepare and send IPC message *)
      pid ← gets _pid;
      r ← msg_send AODVV2_MSG_TYPE_SEND_RREQ (HeapPtr p) pid (msg_send_res o);
      if r <? 1 then
        DEBUG "aodvv2: couldn't send RREQ.\n";;
        mret (-1)
      else mret 0
  end.

Definition aodvv2_send_rrep (pk : option aodvv2_packet_data_t)
    (next_hop' : option ipv6_addr_t) (o : send_oracle) : M Z :=
  msg ← malloc (malloc_res o);
  match msg with
  | None =>
      DEBUG "aodvv2: out of memory!\n";;
      mret (-1)
  | Some p =>
      nh ← deref next_hop';
      store p (λ m, {| pkt := pkt m; next_hop := nh |});;
      pd ← deref pk;
      store p (λ m, {| pkt := pd; next_hop := next_hop m |});;
      pid ← gets _pid;
      r ← msg_send AODVV2_MSG_TYPE_SEND_RREP (HeapPtr p) pid (msg_send_res o);
      if r <? 1 then
        DEBUG "aodvv2: couldn't send RREQ.\n";;
        mret (-1)
      else mret 0
  end.

(** ** The route discovery orchestrator *)

Definition aodvv2_rreqtable_add (pd : aodvv2_packet_data_t) : M unit :=
  emit (EvRreqtableAdd pd).

Definition aodvv2_find_route (target_addr' : ipv6_addr_t) (o : send_oracle) : M Z :=
  (* Set metric information *)
  let hl := aodvv2_metric_max METRIC_HOP_COUNT in
  let mt := CONFIG_AODVV2_DEFAULT_METRIC in
  (* Set OrigNode information *)
  na ← gets _na_netif;
  sq ← gets (λ s, aodvv2_seqnum_get (seqnum_st s));
  modify (λ s, set_seqnum_st (aodvv2_seqnum_inc (seqnum_st s)) s);;
  let orig := {| addr := na; metric := 0; seqnum := sq |} in
  (* Set TargNode information *)
  let targ := {| addr := ipv6_addr_to_netaddr target_addr'; metric := 0;
                 seqnum := 0 |} in
  let pk := {| hoplimit := hl; metric_type := mt; orig_node := orig;
               targ_node := targ |} in
  (* Add RREQ to rreqtable *)
  aodvv2_rreqtable_add pk;;
  aodvv2_send_rreq (Some pk) (Some ipv6_addr_all_manet_routers_link_local) o.

(** [n] route discoveries in a row, with the results they returned. *)
Fixpoint find_routes (calls : list (ipv6_addr_t * send_oracle)) : M (list Z) :=
  match calls with
  | [] => mret []
  | (t, o) :: rest =>
      r ← aodvv2_find_route t o;
      rs ← find_routes rest;
      mret (r :: rs)
  end.

(** Calls of [aodvv2_init] in a row, with the values they returned. *)
Fixpoint init_calls (calls : list (gnrc_netif_t * init_oracle)) : M (list Z) :=
  match calls with
  | [] => mret []
  | (n, o) :: rest =>
      r ← aodvv2_init (Some n) o;
      rs ← init_calls rest;
      mret (r :: rs)
  end.

(** ** Reading a trace *)

(** The requests handed to the duplicate-suppression table, oldest first. *)
Definition rreqtable_added_of (e : event) : option aodvv2_packet_data_t :=
  match e with
  | EvRreqtableAdd pd => Some pd
  | _ => None
  end.

Definition rreqtable_added (tr : list event) : list aodvv2_packet_data_t :=
  omap rreqtable_added_of tr.

(** The sequence numbers stamped into the origin of those requests. *)
Definition stamped_seqnums (tr : list event) : list Z :=
  (λ pd, seqnum (orig_node pd)) <$> rreqtable_added tr.

(** The packets given to [gnrc_pktbuf_release], oldest first. *)
Definition released_of (e : event) : option gnrc_pktsnip_t :=
  match e with
  | EvPktbufRelease pk => Some pk
  | _ => None
  end.

Definition released (tr : list event) : list gnrc_pktsnip_t :=
  omap released_of tr.

(** The blocks whose address was sent to the engine thread in a message of
    type SEND_RREQ, oldest first. *)
Definition sent_rreq_of (e : event) : option positive :=
  match e with
  | EvMsgSend mtype (HeapPtr p) _ =>
      if mtype =? AODVV2_MSG_TYPE_SEND_RREQ then Some p else None
  | _ => None
  end.

Definition sent_rreq_blocks (tr : list event) : list positive :=
  omap sent_rreq_of tr.

(** The packets the engine thread is given to receive, oldest first: the
    contents of the messages of type RCV that point to a packet. *)
Definition inbound_packet_of (m : msg_t) : option gnrc_pktsnip_t :=
  if type m =? GNRC_NETAPI_MSG_TYPE_RCV then
    match content m with
    | PktPtr pk => Some pk
    | _ => None
    end
  else None.

Definition inbound_packets (inbox : list (msg_t * step_oracle))
    : list gnrc_pktsnip_t :=
  omap (λ mo, inbound_packet_of mo.1) inbox.

End Engine.

Arguments uint16_t : simpl never.
Arguments Ok {P A} a s.
Arguments Fault {P A} f s.

(** ** An example platform

    One choice of values for the interface, in the style of a RIOT build, to
    run the model on concrete inputs.  The general statements below hold
    for every platform; only the closed examples use this one.  The default
    metric kind is left open: it is a build option. *)
Module Example.

Record netaddr_t : Type := { _addr : list Byte.byte; _type : Z; _prefix_len : Z }.

Definition is_ipv6 (sn : snip) : bool :=
  match snip_type sn with
  | GNRC_NETTYPE_IPV6 => true
  | _ => false
  end.

(** The first snip of type IPv6 that holds a 40-byte header. *)
Definition ipv6_get_header (pk : gnrc_pktsnip_t) : option ipv6_hdr_t :=
  match find is_ipv6 pk with
  | Some sn =>
      match snip_data sn with
      | Some d =>
          if (length d =? 40)%nat
          then Some {| src := take 16 (drop 8 d); dst := take 16 (drop 24 d) |}
          else None
      | None => None
      end
  | None => None
  end.

Definition hop_count : Z := 3.

Definition metric_max (kind : Z) : Z :=
  if kind =? hop_count then 255 else 0.

Definition all_manet_routers : ipv6_addr_t :=
  [Byte.xff; Byte.x02; Byte.x00; Byte.x00; Byte.x00; Byte.x00; Byte.x00; Byte.x00;
   Byte.x00; Byte.x00; Byte.x00; Byte.x00; Byte.x00; Byte.x00; Byte.x00; Byte.x6d].

Definition platform (default_metric : Z) : Platform :=
  {| KERNEL_PID_UNDEF := 0;
     ENOTSUP := 134;
     AODVV2_MSG_TYPE_SEND_RREQ := 0x9000;
     AODVV2_MSG_TYPE_SEND_RREP := 0x9001;
     GNRC_NETAPI_MSG_TYPE_RCV := 0x0201;
     GNRC_NETAPI_MSG_TYPE_GET := 0x0204;
     GNRC_NETAPI_MSG_TYPE_SET := 0x0203;
     GNRC_NETAPI_MSG_TYPE_ACK := 0x0205;
     GNRC_NETREG_DEMUX_CTX_ALL := 0xffff0000;
     RFC5444_MSGTYPE_RREQ := 10;
     RFC5444_MSGTYPE_RREP := 11;
     RFC5444_OKAY := 0;
     CONFIG_AODVV2_RFC5444_PROTOCOL_PORT := 269;
     CONFIG_AODVV2_RFC5444_PACKET_SIZE := 128;
     CONFIG_AODVV2_RFC5444_ADDR_TLVS_SIZE := 1000;
     CONFIG_AODVV2_DEFAULT_METRIC := default_metric;
     METRIC_HOP_COUNT := hop_count;
     AODVV2_PREFIX_LEN := 128;
     ipv6_addr_all_manet_routers_link_local := all_manet_routers;
     netaddr := netaddr_t;
     ipv6_addr_to_netaddr := λ a, {| _addr := a; _type := 10; _prefix_len := 128 |};
     aodvv2_metric_max := metric_max;
     seqnum_store := Z;
     aodvv2_seqnum_init := λ _, 1;
     aodvv2_seqnum_get := λ n, n;
     aodvv2_seqnum_inc := λ n, if n =? 65535 then 1 else n + 1;
     gnrc_ipv6_get_header := ipv6_get_header;
     switch_labels_distinct := ltac:(apply (bool_decide_unpack _); vm_compute; exact I)
  |}.

(** The build whose default metric kind is the hop count. *)
Definition riot : Platform := platform hop_count.

(** A build whose default metric kind is another one. *)
Definition other_metric : Platform := platform 4.

Definition zero_addr : ipv6_addr_t := replicate 16 Byte.x00.

Definition zero_node (P : Platform) (a : netaddr) : node_data :=
  {| addr := a; metric := 0; seqnum := 0 |}.

Definition zero_packet (P : Platform) (a : netaddr) : aodvv2_packet_data_t :=
  {| hoplimit := 0; metric_type := 0; orig_node := zero_node P a;
     targ_node := zero_node P a |}.

(** The variables as the C start-up code leaves them, for a store that
    holds [sq]. *)
Definition boot (default_metric : Z) (sq : Z) : @state (platform default_metric) :=
  let P := platform default_metric in
  let na := {| _addr := zero_addr; _type := 0; _prefix_len := 0 |} in
  {| _pid := 0;
     _netif := None;
     _na_netif := na;
     netreg := {| demux_ctx := 0xffff0000; target_pid := 0 |};
     _writer := {| msg_buffer := None; msg_size := 0; addrtlv_buffer := None;
                   addrtlv_size := 0 |};
     _writer_context :=
       {| target := {| packet_buffer := None; packet_size := 0;
                       sendPacket := None |};
          packet_data := zero_packet P na;
          wtype := 0;
          target_addr := zero_addr |};
     seqnum_st := sq;
     heap := ∅;
     pktbuf := ∅;
     trace := [] |}.

Definition target_2001_db8_2 : ipv6_addr_t :=
  [Byte.x20; Byte.x01; Byte.x0d; Byte.xb8; Byte.x00; Byte.x00; Byte.x00; Byte.x00;
   Byte.x00; Byte.x00; Byte.x00; Byte.x00; Byte.x00; Byte.x00; Byte.x00; Byte.x02].

(** What a fresh heap block may hold before it is written. *)
Definition junk_msg (default_metric : Z) : @aodvv2_msg_t (platform default_metric) :=
  let P := platform default_metric in
  {| pkt := zero_packet P {| _addr := zero_addr; _type := 0; _prefix_len := 0 |};
     next_hop := zero_addr |}.

(** [malloc] succeeds and the engine thread takes the message. *)
Definition send_ok (default_metric : Z) : @send_oracle (platform default_metric) :=
  {| malloc_res := Some (junk_msg default_metric); msg_send_res := 1 |}.

(** [malloc] succeeds and [msg_send] finds no thread under [_pid]. *)
Definition send_refused (default_metric : Z) : @send_oracle (platform default_metric) :=
  {| malloc_res := Some (junk_msg default_metric); msg_send_res := -1 |}.

(** The network stack allocates every header and one thread takes the
    packet. *)
Definition sink_ok : send_packet_oracle :=
  {| payload_ok := true;
     udp_hdr_res := Some (replicate 8 Byte.x00);
     ipv6_hdr_res := Some (replicate 40 Byte.x00);
     netif_hdr_res := Some (replicate 4 Byte.x00);
     dispatch_res := 1 |}.

(** The packet buffer is full when the network-interface header is built. *)
Definition sink_no_netif_hdr : send_packet_oracle :=
  {| payload_ok := true;
     udp_hdr_res := Some (replicate 8 Byte.x00);
     ipv6_hdr_res := Some (replicate 40 Byte.x00);
     netif_hdr_res := None;
     dispatch_res := 1 |}.

Definition encoded : list Byte.byte := [Byte.x00; Byte.x0a; Byte.x03].

Definition netif7 : gnrc_netif_t := {| netif_pid := 7 |}.
Definition netif9 : gnrc_netif_t := {| netif_pid := 9 |}.

(** The kernel starts the engine as thread 3 and the interface gives its
    address. *)
Definition init_ok : init_oracle :=
  {| thread_create_res := 3; netapi_get_res := 0;
     netif_addr := target_2001_db8_2 |}.

(** The kernel has no free thread slot and answers a negative errno. *)
Definition init_no_thread : init_oracle :=
  {| thread_create_res := -139; netapi_get_res := 0; netif_addr := zero_addr |}.

(** The state after a first, successful [aodvv2_init] on interface 7. *)
Definition running : @state riot :=
  final (aodvv2_init (P := riot) (Some netif7) init_ok (boot 3 1)).

(** A request as [aodvv2_find_route] builds them. *)
Definition request : @aodvv2_packet_data_t riot :=
  @Build_aodvv2_packet_data_t riot 255 3
    (@Build_node_data riot
       {| _addr := target_2001_db8_2; _type := 10; _prefix_len := 128 |} 0 1)
    (@Build_node_data riot
       {| _addr := zero_addr; _type := 10; _prefix_len := 128 |} 0 0).

(** An IPv6 header from 2001:db8::2 to ff02::6d. *)
Definition ipv6_header_bytes : list Byte.byte :=
  [Byte.x60; Byte.x00; Byte.x00; Byte.x00; Byte.x00; Byte.x0b; Byte.x11; Byte.x01]
  ++ target_2001_db8_2 ++ all_manet_routers.

Definition payload_snip : snip :=
  {| snip_id := 1; snip_type := GNRC_NETTYPE_UNDEF; snip_data := Some encoded;
     snip_size := 3 |}.

Definition udp_snip : snip :=
  {| snip_id := 2; snip_type := GNRC_NETTYPE_UDP;
     snip_data := Some (replicate 8 Byte.x00); snip_size := 8 |}.

Definition ipv6_snip : snip :=
  {| snip_id := 3; snip_type := GNRC_NETTYPE_IPV6;
     snip_data := Some ipv6_header_bytes; snip_size := 40 |}.

Definition netif_snip : snip :=
  {| snip_id := 4; snip_type := GNRC_NETTYPE_NETIF;
     snip_data := Some (replicate 4 Byte.x00); snip_size := 4 |}.

(** A datagram as the UDP layer delivers it: payload first, then the
    headers it came through. *)
Definition inbound : gnrc_pktsnip_t :=
  [payload_snip; udp_snip; ipv6_snip; netif_snip].

(** A packet that does not come through the IPv6 layer. *)
Definition inbound_no_ipv6 : gnrc_pktsnip_t := [payload_snip; netif_snip].

(** The running engine, the four snips above being live with one user. *)
Definition receiving : @state riot :=
  set_pktbuf (list_to_map [(1%positive, 1%nat); (2%positive, 1%nat);
                           (3%positive, 1%nat); (4%positive, 1%nat)])
    running.

Definition no_oracle : step_oracle := {| flush_out := []; parse_res := 0 |}.

Definition get_msg : msg_t :=
  {| sender_pid := 5; type := 0x0204; content := RawValue 0 |}.

Definition set_msg : msg_t :=
  {| sender_pid := 5; type := 0x0203; content := RawValue 0 |}.

Definition unknown_msg : msg_t :=
  {| sender_pid := 5; type := 0x1234; content := NullPtr |}.

(** The message the UDP layer sends for [inbound]. *)
Definition rcv_msg : msg_t :=
  {| sender_pid := 2; type := 0x0201; content := PktPtr inbound |}.

(** The codec flushes one packet and the network stack takes it. *)
Definition flush_one : step_oracle :=
  {| flush_out := [(encoded, sink_ok)]; parse_res := 0 |}.

(** The network stack has no room for the UDP header. *)
Definition sink_no_udp_hdr : send_packet_oracle :=
  {| payload_ok := true;
     udp_hdr_res := None;
     ipv6_hdr_res := Some (replicate 40 Byte.x00);
     netif_hdr_res := Some (replicate 4 Byte.x00);
     dispatch_res := 1 |}.

(** The interface does not give its address. *)
Definition init_no_addr : init_oracle :=
  {| thread_create_res := 3; netapi_get_res := -1; netif_addr := zero_addr |}.

(** The running engine after a caller queued [request] for the all-routers
    address, and the message that carries the block to the engine thread. *)
Definition queued : @state riot :=
  final (aodvv2_send_rreq (P := riot) (Some request) (Some all_manet_routers)
           (send_ok 3) running).

Definition send_rreq_msg : msg_t :=
  {| sender_pid := 5; type := 0x9000; content := HeapPtr 1 |}.

End Example.

(** * Properties *)

(** ** Running the monad *)

Ltac unfold_monad :=
  unfold mbind, M_bind, mret, M_ret, gets, modify, raise, emit, DEBUG,
    mutex_init, mutex_lock, mutex_unlock in *.

Ltac unfold_setters :=
  unfold set_pid, set_netif, set_na_netif, set_netreg, set_writer,
    set_writer_context, set_seqnum_st, set_heap, set_pktbuf, set_trace in *.

(** ** The public request API *)

Section Request_API.
Context {P : Platform}.

(** What a send leaves behind, as one equation: nothing but a log line when
    [malloc] fails; otherwise the block [p], filled with the two copies, and
    the IPC message that carries it. *)
Lemma aodvv2_send_rreq_run (pd : aodvv2_packet_data_t) (nh : ipv6_addr_t)
    (o : send_oracle) (s : state) :
  aodvv2_send_rreq (Some pd) (Some nh) o s =
  match malloc_res o with
  | None => Ok (-1) (set_trace (trace s ++ [EvDebug "aodvv2: out of memory!\n"]) s)
  | Some _ =>
      let p := fresh (dom (heap s)) in
      let s1 :=
        set_trace (trace s ++ [EvMsgSend AODVV2_MSG_TYPE_SEND_RREQ (HeapPtr p) (_pid s)])
          (set_heap (<[p := {| pkt := pd; next_hop := nh |}]> (heap s)) s) in
      if msg_send_res o <? 1
      then Ok (-1) (set_trace (trace s1 ++ [EvDebug "aodvv2: couldn't send RREQ.\n"]) s1)
      else Ok 0 s1
  end.
Proof.
  unfold aodvv2_send_rreq, malloc, store, msg_send, deref.
  destruct (malloc_res o) as [junk|]; unfold_monad; cbn; [|reflexivity].
  repeat (rewrite lookup_insert_eq; cbn).
  unfold_setters; cbn. rewrite !insert_insert_eq.
  destruct (msg_send_res o <? 1); reflexivity.
Qed.

Lemma aodvv2_send_rrep_run (pd : aodvv2_packet_data_t) (nh : ipv6_addr_t)
    (o : send_oracle) (s : state) :
  aodvv2_send_rrep (Some pd) (Some nh) o s =
  match malloc_res o with
  | None => Ok (-1) (set_trace (trace s ++ [EvDebug "aodvv2: out of memory!\n"]) s)
  | Some _ =>
      let p := fresh (dom (heap s)) in
      let s1 :=
        set_trace (trace s ++ [EvMsgSend AODVV2_MSG_TYPE_SEND_RREP (HeapPtr p) (_pid s)])
          (set_heap (<[p := {| pkt := pd; next_hop := nh |}]> (heap s)) s) in
      if msg_send_res o <? 1
      then Ok (-1) (set_trace (trace s1 ++ [EvDebug "aodvv2: couldn't send RREQ.\n"]) s1)
      else Ok 0 s1
  end.
Proof.
  unfold aodvv2_send_rrep, malloc, store, msg_send, deref.
  destruct (malloc_res o) as [junk|]; unfold_monad; cbn; [|reflexivity].
  repeat (rewrite lookup_insert_eq; cbn).
  unfold_setters; cbn. rewrite !insert_insert_eq.
  destruct (msg_send_res o <? 1); reflexivity.
Qed.

(** The block a send allocates was not live before. *)
Lemma fresh_block_is_new (s : state) : heap s !! fresh (dom (heap s)) = None.
Proof. apply not_elem_of_dom, is_fresh. Qed.

End Request_API.

(** ** Route discovery *)

Section Route_discovery.
Context {P : Platform}.

(** One call, as the send it ends with. *)
Lemma aodvv2_find_route_run (target : ipv6_addr_t) (o : send_oracle) (s : state) :
  aodvv2_find_route target o s =
  aodvv2_send_rreq
    (Some {| hoplimit := aodvv2_metric_max METRIC_HOP_COUNT;
             metric_type := CONFIG_AODVV2_DEFAULT_METRIC;
             orig_node := {| addr := _na_netif s; metric := 0;
                             seqnum := aodvv2_seqnum_get (seqnum_st s) |};
             targ_node := {| addr := ipv6_addr_to_netaddr target; metric := 0;
                             seqnum := 0 |} |})
    (Some ipv6_addr_all_manet_routers_link_local) o
    (set_trace
       (trace s ++
        [EvRreqtableAdd
           {| hoplimit := aodvv2_metric_max METRIC_HOP_COUNT;
              metric_type := CONFIG_AODVV2_DEFAULT_METRIC;
              orig_node := {| addr := _na_netif s; metric := 0;
                              seqnum := aodvv2_seqnum_get (seqnum_st s) |};
              targ_node := {| addr := ipv6_addr_to_netaddr target; metric := 0;
                              seqnum := 0 |} |}])
       (set_seqnum_st (aodvv2_seqnum_inc (seqnum_st s)) s)).
Proof. reflexivity. Qed.

Lemma rreqtable_added_app (t1 t2 : list event) :
  rreqtable_added (t1 ++ t2) = rreqtable_added t1 ++ rreqtable_added t2.
Proof. apply omap_app. Qed.

(** A send hands nothing to the duplicate-suppression table and leaves the
    sequence-number store alone. *)
Lemma aodvv2_send_rreq_frame (pd : aodvv2_packet_data_t) (nh : ipv6_addr_t)
    (o : send_oracle) (s : state) :
  ∃ r s', aodvv2_send_rreq (Some pd) (Some nh) o s = Ok r s'
          ∧ seqnum_st s' = seqnum_st s
          ∧ rreqtable_added (trace s') = rreqtable_added (trace s).
Proof.
  rewrite aodvv2_send_rreq_run.
  destruct (malloc_res o); cbn; [destruct (msg_send_res o <? 1)|];
    eexists _, _; (split; [reflexivity|]); cbn;
    unfold rreqtable_added; rewrite !omap_app; cbn; rewrite ?app_nil_r; done.
Qed.

(** What every call does to the store and to the table. *)
Lemma aodvv2_find_route_step (target : ipv6_addr_t) (o : send_oracle) (s : state) :
  ∃ r s', aodvv2_find_route target o s = Ok r s'
          ∧ seqnum_st s' = aodvv2_seqnum_inc (seqnum_st s)
          ∧ stamped_seqnums (trace s')
            = stamped_seqnums (trace s) ++ [aodvv2_seqnum_get (seqnum_st s)].
Proof.
  rewrite aodvv2_find_route_run.
  match goal with |- context [aodvv2_send_rreq (Some ?pd) (Some ?nh) o ?s1] =>
    destruct (aodvv2_send_rreq_frame pd nh o s1) as (r & s' & Hrun & Hsq & Htr)
  end.
  exists r, s'. split; [exact Hrun|]. split; [exact Hsq|].
  unfold stamped_seqnums. rewrite Htr.
  cbn [trace set_trace set_seqnum_st].
  rewrite rreqtable_added_app, fmap_app. reflexivity.
Qed.

(** The values a store issues over [n] increments, oldest first. *)
Lemma iter_inc_shift (k : nat) (st : seqnum_store) :
  Nat.iter k aodvv2_seqnum_inc (aodvv2_seqnum_inc st)
  = Nat.iter (S k) aodvv2_seqnum_inc st.
Proof. symmetry. apply Nat.iter_succ_r. Qed.

Lemma find_routes_run (calls : list (ipv6_addr_t * send_oracle)) (s : state) :
  ∃ rs s', find_routes calls s = Ok rs s'
           ∧ length rs = length calls
           ∧ seqnum_st s' = Nat.iter (length calls) aodvv2_seqnum_inc (seqnum_st s)
           ∧ stamped_seqnums (trace s')
             = stamped_seqnums (trace s)
               ++ ((λ k, aodvv2_seqnum_get (Nat.iter k aodvv2_seqnum_inc (seqnum_st s)))
                     <$> seq 0 (length calls)).
Proof.
  revert s. induction calls as [|[t o] rest IH]; intros s.
  - exists [], s. cbn. by rewrite app_nil_r.
  - destruct (aodvv2_find_route_step t o s) as (r & s1 & Hrun & Hsq & Htr).
    destruct (IH s1) as (rs & s' & Hrest & Hlen & Hsq' & Htr').
    exists (r :: rs), s'. cbn [find_routes].
    unfold mbind, M_bind. rewrite Hrun, Hrest. cbn.
    split; [reflexivity|]. split; [by rewrite Hlen|].
    split.
    + rewrite Hsq', Hsq. apply iter_inc_shift.
    + rewrite Htr', Htr, Hsq, <- app_assoc. f_equal. cbn. f_equal.
      rewrite <- fmap_S_seq, <- list_fmap_compose.
      apply list_fmap_ext. intros _ k _. cbn. by rewrite iter_inc_shift.
Qed.

Lemma issued_increasing (f : nat → Z) (n : nat) :
  (∀ k, (S k < n)%nat → f k < f (S k)) →
  ∀ i j, (i < j)%nat → (j < n)%nat → f i < f j.
Proof.
  intros Hstep i j Hij. induction Hij as [|j Hij IH]; intros Hn.
  - apply Hstep. lia.
  - etrans; [apply IH; lia|apply Hstep; lia].
Qed.

Lemma issued_sorted (f : nat → Z) (a m n : nat) :
  (∀ i j, (i < j)%nat → (j < n)%nat → f i < f j) →
  (a + m ≤ n)%nat →
  StronglySorted Z.lt (f <$> seq a m).
Proof.
  intros Hmono. revert a. induction m as [|m IH]; intros a Ha; cbn.
  - constructor.
  - constructor; [apply IH; lia|].
    apply Forall_fmap, Forall_forall. intros k Hk.
    apply elem_of_seq in Hk. cbn. apply Hmono; lia.
Qed.

Lemma strongly_sorted_lt_NoDup (l : list Z) : StronglySorted Z.lt l → NoDup l.
Proof.
  induction 1 as [|x l _ IH Hall]; constructor; [|exact IH].
  intros Hin. rewrite Forall_forall in Hall. specialize (Hall x Hin). lia.
Qed.

Lemma sent_rreq_blocks_app (t1 t2 : list event) :
  sent_rreq_blocks (t1 ++ t2) = sent_rreq_blocks t1 ++ sent_rreq_blocks t2.
Proof. apply omap_app. Qed.

(** One discovery, seen from the engine's side of the queue: when [malloc]
    succeeds, the address of one new block is sent, and the block holds the
    request that was registered and the all-routers address; no block that
    was live is changed. *)
Lemma aodvv2_find_route_queues (target : ipv6_addr_t) (o : send_oracle)
    (s : state) :
  ∃ r s' pd,
    aodvv2_find_route target o s = Ok r s'
    ∧ rreqtable_added (trace s') = rreqtable_added (trace s) ++ [pd]
    ∧ hoplimit pd = aodvv2_metric_max METRIC_HOP_COUNT
    ∧ heap s ⊆ heap s'
    ∧ match malloc_res o with
      | Some _ =>
          ∃ p, sent_rreq_blocks (trace s') = sent_rreq_blocks (trace s) ++ [p]
               ∧ heap s' !! p
                 = Some {| pkt := pd;
                           next_hop := ipv6_addr_all_manet_routers_link_local |}
      | None => sent_rreq_blocks (trace s') = sent_rreq_blocks (trace s)
      end.
Proof.
  rewrite aodvv2_find_route_run, aodvv2_send_rreq_run.
  destruct (malloc_res o) as [junk|]; cbv zeta;
    [destruct (msg_send_res o <? 1)|];
    eexists _, _, _; (split; [reflexivity|]);
    cbn [trace set_trace set_heap set_seqnum_st heap];
    rewrite <- ?app_assoc, ?rreqtable_added_app, ?sent_rreq_blocks_app;
    (split; [cbn; rewrite ?app_nil_r; reflexivity|]);
    (split; [reflexivity|]).
  - split; [apply insert_subseteq, fresh_block_is_new|].
    eexists. split; [|apply lookup_insert_eq].
    unfold sent_rreq_blocks at 2 3. cbn. rewrite Z.eqb_refl. cbn.
    by rewrite ?app_nil_r.
  - split; [apply insert_subseteq, fresh_block_is_new|].
    eexists. split; [|apply lookup_insert_eq].
    unfold sent_rreq_blocks at 2. cbn. rewrite Z.eqb_refl. cbn. done.
  - split; [done|]. cbn. by rewrite ?app_nil_r.
Qed.

Lemma find_routes_queue (calls : list (ipv6_addr_t * send_oracle)) (s : state) :
  ∃ rs s' reqs ps msgs,
    find_routes calls s = Ok rs s'
    ∧ rreqtable_added (trace s') = rreqtable_added (trace s) ++ reqs
    ∧ sent_rreq_blocks (trace s') = sent_rreq_blocks (trace s) ++ ps
    ∧ Forall2 (λ p m, heap s' !! p = Some m) ps msgs
    ∧ pkt <$> msgs `sublist_of` reqs
    ∧ Forall (λ m, next_hop m = ipv6_addr_all_manet_routers_link_local) msgs
    ∧ length msgs = length (filter (λ c, is_Some (malloc_res c.2)) calls)
    ∧ heap s ⊆ heap s'.
Proof.
  revert s. induction calls as [|[t o] rest IH]; intros s.
  - exists [], s, [], [], []. cbn. rewrite !app_nil_r.
    repeat split; try done; constructor.
  - destruct (aodvv2_find_route_queues t o s)
      as (r & s1 & pd & Hrun & Hadd & _ & Hsub & Hq).
    destruct (IH s1)
      as (rs & s' & reqs & ps & msgs & Hrest & Hadd' & Hsent' & Hlive & Hsl
          & Hnh & Hlen & Hsub').
    cbn [find_routes]. unfold mbind, M_bind. rewrite Hrun, Hrest.
    destruct (malloc_res o) as [junk|] eqn:Hm.
    + destruct Hq as (p & Hsent & Hp).
      exists (r :: rs), s', (pd :: reqs), (p :: ps),
        ({| pkt := pd; next_hop := ipv6_addr_all_manet_routers_link_local |}
           :: msgs).
      split; [reflexivity|].
      split; [by rewrite Hadd', Hadd, <- app_assoc|].
      split; [by rewrite Hsent', Hsent, <- app_assoc|].
      split.
      { constructor; [|exact Hlive].
        eapply lookup_weaken; [exact Hp|exact Hsub']. }
      split; [cbn; by apply sublist_skip|].
      split; [by constructor|].
      split.
      { rewrite filter_cons_True by (cbn; rewrite Hm; by eexists).
        cbn. by rewrite Hlen. }
      by etrans.
    + exists (r :: rs), s', (pd :: reqs), ps, msgs.
      split; [reflexivity|].
      split; [by rewrite Hadd', Hadd, <- app_assoc|].
      split; [by rewrite Hsent', Hq|].
      split; [exact Hlive|].
      split; [by apply sublist_cons|].
      split; [exact Hnh|].
      split.
      { rewrite filter_cons_False; [exact Hlen|].
        cbn. rewrite Hm. by intros [? ?]. }
      by etrans.
Qed.

Lemma strongly_sorted_sublist {A : Type} (R : relation A) (l1 l2 : list A) :
  l1 `sublist_of` l2 → StronglySorted R l2 → StronglySorted R l1.
Proof.
  induction 1 as [|x l1 l2 Hsub IH|x l1 l2 Hsub IH]; intros Hs.
  - constructor.
  - apply StronglySorted_inv in Hs as [Hs Hall].
    constructor; [by apply IH|].
    rewrite Forall_forall in Hall |- *. intros y Hy.
    apply Hall. by eapply elem_of_sublist.
  - apply StronglySorted_inv in Hs as [Hs _]. by apply IH.
Qed.

Lemma sublist_same_length {A : Type} (l1 l2 : list A) :
  l1 `sublist_of` l2 → length l1 = length l2 → l1 = l2.
Proof.
  induction 1 as [|x l1 l2 Hsub IH|x l1 l2 Hsub IH]; cbn; intros Hlen.
  - reflexivity.
  - f_equal. apply IH. lia.
  - apply sublist_length in Hsub. lia.
Qed.

Lemma sublist_fmap_mono {A B : Type} (f : A → B) (l1 l2 : list A) :
  l1 `sublist_of` l2 → f <$> l1 `sublist_of` f <$> l2.
Proof.
  induction 1; cbn; [constructor|by apply sublist_skip|by apply sublist_cons].
Qed.

Lemma filter_all {A : Type} (Q : A → Prop) `{!∀ x, Decision (Q x)} (l : list A) :
  Forall Q l → filter Q l = l.
Proof.
  induction 1 as [|x l Hx _ IH]; [reflexivity|].
  by rewrite filter_cons_True, IH.
Qed.

End Route_discovery.

Section Requests_and_discovery.
Context {P : Platform}.

(** C1 (as amended).  For every target address, every answer of the
    environment and every state, [aodvv2_find_route] returns, and the one
    request it builds and registers has its [hoplimit] equal to the metric
    module's maximum for the hop-count kind [METRIC_HOP_COUNT], whatever the
    configured default metric kind is. *)
Theorem find_route_hoplimit_is_hop_count_max (target : ipv6_addr_t)
    (o : send_oracle) (s : state) :
  ∃ r s' pd,
    aodvv2_find_route target o s = Ok r s'
    ∧ rreqtable_added (trace s') = rreqtable_added (trace s) ++ [pd]
    ∧ hoplimit pd = aodvv2_metric_max METRIC_HOP_COUNT.
Proof.
  rewrite aodvv2_find_route_run.
  match goal with |- context [aodvv2_send_rreq (Some ?pd) (Some ?nh) o ?s1] =>
    destruct (aodvv2_send_rreq_frame pd nh o s1) as (r & s' & Hrun & _ & Htr);
    exists r, s', pd
  end.
  split; [exact Hrun|]. split; [|reflexivity].
  rewrite Htr. cbn [trace set_trace set_seqnum_st].
  by rewrite rreqtable_added_app.
Qed.

(** C2.  Every call of [aodvv2_find_route] returns.  The request [pd] it
    builds has this node's address, metric 0 and the store's current value
    as origin, the converted target address, metric 0 and sequence number 0
    as target; the store is incremented once; [pd] is handed to the RREQ
    table, and only then to [aodvv2_send_rreq] with the all-routers address
    as next hop; the value returned is the one that send returns. *)
Theorem find_route_builds_registers_sends (target : ipv6_addr_t)
    (o : send_oracle) (s : state) :
  let pd :=
    {| hoplimit := aodvv2_metric_max METRIC_HOP_COUNT;
       metric_type := CONFIG_AODVV2_DEFAULT_METRIC;
       orig_node := {| addr := _na_netif s; metric := 0;
                       seqnum := aodvv2_seqnum_get (seqnum_st s) |};
       targ_node := {| addr := ipv6_addr_to_netaddr target; metric := 0;
                       seqnum := 0 |} |} in
  let all_routers := ipv6_addr_all_manet_routers_link_local in
  let registered :=
    set_trace (trace s ++ [EvRreqtableAdd pd])
      (set_seqnum_st (aodvv2_seqnum_inc (seqnum_st s)) s) in
  let p := fresh (dom (heap s)) in
  ∃ r s',
    aodvv2_find_route target o s = Ok r s'
    ∧ aodvv2_send_rreq (Some pd) (Some all_routers) o registered = Ok r s'
    ∧ seqnum_st s' = aodvv2_seqnum_inc (seqnum_st s)
    ∧ rreqtable_added (trace s') = rreqtable_added (trace s) ++ [pd]
    ∧ match malloc_res o with
      | None =>
          r = -1
          ∧ heap s' = heap s
          ∧ trace s' = trace s ++ [EvRreqtableAdd pd;
                                   EvDebug "aodvv2: out of memory!\n"]
      | Some _ =>
          heap s' = <[p := {| pkt := pd; next_hop := all_routers |}]> (heap s)
          ∧ if msg_send_res o <? 1
            then r = -1
                 ∧ trace s' = trace s ++
                     [EvRreqtableAdd pd;
                      EvMsgSend AODVV2_MSG_TYPE_SEND_RREQ (HeapPtr p) (_pid s);
                      EvDebug "aodvv2: couldn't send RREQ.\n"]
            else r = 0
                 ∧ trace s' = trace s ++
                     [EvRreqtableAdd pd;
                      EvMsgSend AODVV2_MSG_TYPE_SEND_RREQ (HeapPtr p) (_pid s)]
      end.
Proof.
  intros pd all_routers registered p.
  rewrite aodvv2_find_route_run. fold pd all_routers registered.
  rewrite aodvv2_send_rreq_run.
  destruct (malloc_res o) as [junk|]; cbn -[rreqtable_added];
    [destruct (msg_send_res o <? 1)|];
    eexists _, _; (split; [reflexivity|]); (split; [reflexivity|]);
    cbn -[rreqtable_added];
    rewrite ?rreqtable_added_app, <- ?app_assoc; cbn; rewrite ?app_nil_r; done.
Qed.

(** C4 (the code at the failing input).  When [malloc] succeeds and the
    enqueue fails, both sends return -1 and the block they allocated is
    still live, holding the copies: nothing frees it. *)
Theorem send_enqueue_failure_keeps_block (pd : aodvv2_packet_data_t)
    (nh : ipv6_addr_t) (o : send_oracle) (junk : aodvv2_msg_t) (s : state) :
  malloc_res o = Some junk →
  msg_send_res o < 1 →
  let p := fresh (dom (heap s)) in
  heap s !! p = None
  ∧ ∃ s1 s2,
      aodvv2_send_rreq (Some pd) (Some nh) o s = Ok (-1) s1
      ∧ aodvv2_send_rrep (Some pd) (Some nh) o s = Ok (-1) s2
      ∧ heap s1 !! p = Some {| pkt := pd; next_hop := nh |}
      ∧ heap s2 !! p = Some {| pkt := pd; next_hop := nh |}
      ∧ trace s1 = trace s ++
          [EvMsgSend AODVV2_MSG_TYPE_SEND_RREQ (HeapPtr p) (_pid s);
           EvDebug "aodvv2: couldn't send RREQ.\n"]
      ∧ trace s2 = trace s ++
          [EvMsgSend AODVV2_MSG_TYPE_SEND_RREP (HeapPtr p) (_pid s);
           EvDebug "aodvv2: couldn't send RREQ.\n"].
Proof.
  intros Hmalloc Hsend p. split; [apply fresh_block_is_new|].
  rewrite aodvv2_send_rreq_run, aodvv2_send_rrep_run, Hmalloc.
  apply Z.ltb_lt in Hsend. rewrite Hsend. cbn.
  eexists _, _. do 2 (split; [reflexivity|]). cbn.
  rewrite !lookup_insert_eq, <- !app_assoc. done.
Qed.

(** C8.  Over any run of calls of [aodvv2_find_route], if the values the
    store issues along the run are strictly increasing, then every call
    returns and the store has been incremented once per call.  The requests
    built and registered carry, as origin sequence numbers, the values
    issued, in order: strictly increasing and pairwise distinct.  The
    requests handed on to the engine thread are among them, in the same
    order: every call whose [malloc] succeeds sends the address of one block
    that holds its request and the all-routers address, so the sequence
    numbers in the queued blocks are strictly increasing and pairwise
    distinct, and they are all of the stamped ones when no [malloc] fails. *)
Theorem find_routes_seqnums_increasing
    (calls : list (ipv6_addr_t * send_oracle)) (s : state) :
  let n := length calls in
  let issued k := aodvv2_seqnum_get (Nat.iter k aodvv2_seqnum_inc (seqnum_st s)) in
  let origin_seqnum (pd : aodvv2_packet_data_t) := seqnum (orig_node pd) in
  (∀ k, (S k < n)%nat → issued k < issued (S k)) →
  ∃ rs s' stamped reqs ps msgs,
    find_routes calls s = Ok rs s'
    ∧ length rs = n
    ∧ stamped_seqnums (trace s') = stamped_seqnums (trace s) ++ stamped
    ∧ stamped = issued <$> seq 0 n
    ∧ StronglySorted Z.lt stamped
    ∧ NoDup stamped
    ∧ seqnum_st s' = Nat.iter n aodvv2_seqnum_inc (seqnum_st s)
    ∧ rreqtable_added (trace s') = rreqtable_added (trace s) ++ reqs
    ∧ origin_seqnum <$> reqs = stamped
    ∧ sent_rreq_blocks (trace s') = sent_rreq_blocks (trace s) ++ ps
    ∧ Forall2 (λ p m, heap s' !! p = Some m) ps msgs
    ∧ length msgs = length (filter (λ c, is_Some (malloc_res c.2)) calls)
    ∧ pkt <$> msgs `sublist_of` reqs
    ∧ Forall (λ m, next_hop m = ipv6_addr_all_manet_routers_link_local) msgs
    ∧ StronglySorted Z.lt (origin_seqnum <$> (pkt <$> msgs))
    ∧ NoDup (origin_seqnum <$> (pkt <$> msgs))
    ∧ (Forall (λ c, is_Some (malloc_res c.2)) calls →
       pkt <$> msgs = reqs ∧ origin_seqnum <$> (pkt <$> msgs) = stamped).
Proof.
  intros n issued origin_seqnum Hinc.
  destruct (find_routes_run calls s) as (rs & s' & Hrun & Hlen & Hsq & Htr).
  destruct (find_routes_queue calls s)
    as (rs' & s'' & reqs & ps & msgs & Hrun' & Hadd & Hsent & Hlive & Hsl
        & Hnh & Hcount & _).
  rewrite Hrun in Hrun'. injection Hrun' as <- <-.
  assert (Hsorted : StronglySorted Z.lt (issued <$> seq 0 n)).
  { apply (issued_sorted issued 0 n n); [|lia].
    apply issued_increasing, Hinc. }
  assert (Hreqs : origin_seqnum <$> reqs = issued <$> seq 0 n).
  { unfold stamped_seqnums in Htr. rewrite Hadd, fmap_app in Htr.
    by apply app_inv_head in Htr. }
  assert (Hmsgs : origin_seqnum <$> (pkt <$> msgs) `sublist_of` issued <$> seq 0 n).
  { rewrite <- Hreqs. by apply sublist_fmap_mono. }
  assert (Hsorted' : StronglySorted Z.lt (origin_seqnum <$> (pkt <$> msgs))).
  { by eapply strongly_sorted_sublist. }
  exists rs, s', (issued <$> seq 0 n), reqs, ps, msgs.
  split; [exact Hrun|]. split; [exact Hlen|]. split; [exact Htr|].
  split; [reflexivity|]. split; [exact Hsorted|].
  split; [by apply strongly_sorted_lt_NoDup|]. split; [exact Hsq|].
  split; [exact Hadd|]. split; [exact Hreqs|]. split; [exact Hsent|].
  split; [exact Hlive|]. split; [exact Hcount|]. split; [exact Hsl|].
  split; [exact Hnh|]. split; [exact Hsorted'|].
  split; [by apply strongly_sorted_lt_NoDup|].
  intros Hall.
  assert (Heq : pkt <$> msgs = reqs).
  { apply sublist_same_length; [exact Hsl|].
    rewrite length_fmap, Hcount, (filter_all _ _ Hall).
    apply (f_equal length) in Hreqs.
    rewrite !length_fmap, length_seq in Hreqs. by rewrite Hreqs. }
  split; [exact Heq|]. by rewrite Heq.
Qed.

End Requests_and_discovery.

(** C1: on a build whose default metric kind is not the hop count, the
    request built for 2001:db8::2 carries the hop-count maximum 255, while
    the maximum of the configured default kind is 0. *)
Lemma find_route_hoplimit_not_default_metric_max :
  let P := Example.other_metric in
  ∃ r s' pd,
    aodvv2_find_route Example.target_2001_db8_2 (Example.send_ok 4)
      (Example.boot 4 5) = Ok r s'
    ∧ rreqtable_added (trace s') = [pd]
    ∧ hoplimit pd = 255
    ∧ aodvv2_metric_max CONFIG_AODVV2_DEFAULT_METRIC = 0
    ∧ hoplimit pd ≠ aodvv2_metric_max CONFIG_AODVV2_DEFAULT_METRIC.
Proof.
  intros P. eexists _, _, _.
  split; [vm_compute; reflexivity|].
  split; [vm_compute; reflexivity|].
  split; [reflexivity|]. split; [reflexivity|]. vm_compute. discriminate.
Qed.

(** The scenario of the specification on the example build, the store
    holding 5: one request is queued for the engine thread, with sequence
    number 5 and metric 0 for the origin, 2001:db8::2 and sequence number 0
    for the target, the hop-count maximum as hop limit and the all-routers
    address as next hop; the store then holds 6. *)
Example find_route_scenario :
  ∃ s' p m,
    aodvv2_find_route (P := Example.riot) Example.target_2001_db8_2
      (Example.send_ok 3) (@set_seqnum_st Example.riot 5 Example.running)
    = Ok 0 s'
    ∧ heap s' !! p = Some m
    ∧ size (heap s') = 1%nat
    ∧ last (trace s') = Some (EvMsgSend 0x9000 (HeapPtr p) 3)
    ∧ rreqtable_added (trace s') = [pkt m]
    ∧ next_hop m = Example.all_manet_routers
    ∧ hoplimit (pkt m) = 255
    ∧ seqnum (orig_node (pkt m)) = 5
    ∧ metric (orig_node (pkt m)) = 0
    ∧ Example._addr (addr (targ_node (pkt m))) = Example.target_2001_db8_2
    ∧ seqnum (targ_node (pkt m)) = 0
    ∧ @aodvv2_seqnum_get Example.riot (seqnum_st s') = 6.
Proof.
  eexists _, 1%positive, _. split; [vm_compute; reflexivity|].
  split; [vm_compute; reflexivity|]. repeat split; vm_compute; reflexivity.
Qed.

Lemma send_enqueue_failure_keeps_block_witness :
  let P := Example.riot in
  let p := fresh (dom (heap (Example.boot 3 5))) in
  heap (Example.boot 3 5) !! p = None
  ∧ ∃ s1 s2,
      aodvv2_send_rreq (Some (Example.zero_packet P (_na_netif (Example.boot 3 5))))
        (Some Example.all_manet_routers) (Example.send_refused 3) (Example.boot 3 5)
      = Ok (-1) s1
      ∧ aodvv2_send_rrep (Some (Example.zero_packet P (_na_netif (Example.boot 3 5))))
          (Some Example.all_manet_routers) (Example.send_refused 3) (Example.boot 3 5)
        = Ok (-1) s2
      ∧ heap s1 !! p
        = Some {| pkt := Example.zero_packet P (_na_netif (Example.boot 3 5));
                  next_hop := Example.all_manet_routers |}
      ∧ heap s2 !! p
        = Some {| pkt := Example.zero_packet P (_na_netif (Example.boot 3 5));
                  next_hop := Example.all_manet_routers |}
      ∧ trace s1 = trace (Example.boot 3 5) ++
          [EvMsgSend AODVV2_MSG_TYPE_SEND_RREQ (HeapPtr p) (_pid (Example.boot 3 5));
           EvDebug "aodvv2: couldn't send RREQ.\n"]
      ∧ trace s2 = trace (Example.boot 3 5) ++
          [EvMsgSend AODVV2_MSG_TYPE_SEND_RREP (HeapPtr p) (_pid (Example.boot 3 5));
           EvDebug "aodvv2: couldn't send RREQ.\n"].
Proof.
  intros P.
  apply (send_enqueue_failure_keeps_block (P := P)
           (Example.zero_packet P (_na_netif (Example.boot 3 5)))
           Example.all_manet_routers (Example.send_refused 3)
           (Example.junk_msg 3) (Example.boot 3 5)).
  - reflexivity.
  - vm_compute. reflexivity.
Defined.

Lemma find_routes_seqnums_increasing_witness :
  let P := Example.riot in
  let calls := [(Example.target_2001_db8_2, Example.send_ok 3);
                (Example.zero_addr, Example.send_refused 3);
                (Example.target_2001_db8_2, Example.send_ok 3)] in
  let s := Example.boot 3 5 in
  ∃ rs s' msgs,
    find_routes calls s = Ok rs s'
    ∧ stamped_seqnums (trace s') = [5; 6; 7]
    ∧ sent_rreq_blocks (trace s') = [1; 2; 3]%positive
    ∧ Forall2 (λ p m, heap s' !! p = Some m) [1; 2; 3]%positive msgs
    ∧ (λ m, seqnum (orig_node (pkt m))) <$> msgs = [5; 6; 7]
    ∧ Forall (λ m, next_hop m = Example.all_manet_routers) msgs
    ∧ seqnum_st s' = 8.
Proof.
  intros P calls s.
  destruct (find_routes_seqnums_increasing (P := P) calls s)
    as (rs & s' & stamped & reqs & ps & msgs & Hrun & _ & Htr & Hst & _ & _
        & Hsq & _ & _ & Hsent & Hlive & _ & _ & Hnh & _ & _ & Hall).
  { intros k Hk.
    destruct k as [|[|k]]; [vm_compute; reflexivity..|cbn in Hk; lia]. }
  destruct Hall as [_ Hseq].
  { repeat (apply Forall_cons; split); [..|by apply Forall_nil]; by eexists. }
  assert (Hs' : s' = final (find_routes calls s))
    by exact (eq_sym (f_equal final Hrun)).
  subst stamped.
  assert (Hc : sent_rreq_blocks (trace s') = [1; 2; 3]%positive)
    by (rewrite Hs'; vm_compute; reflexivity).
  assert (Hps : ps = [1; 2; 3]%positive)
    by exact (eq_trans (eq_sym Hsent) Hc).
  exists rs, s', msgs. split; [exact Hrun|].
  split; [etrans; [exact Htr|vm_compute; reflexivity]|].
  split; [exact Hc|].
  split; [by rewrite <- Hps|].
  split.
  { transitivity ((λ pd : aodvv2_packet_data_t, seqnum (orig_node pd))
                    <$> (pkt <$> msgs)).
    - by rewrite <- list_fmap_compose.
    - etrans; [exact Hseq|vm_compute; reflexivity]. }
  split; [exact Hnh|].
  etrans; [exact Hsq|vm_compute; reflexivity].
Defined.

(** ** The transmission sink *)

Section Transmission.
Context {P : Platform}.

Lemma released_app (t1 t2 : list event) :
  released (t1 ++ t2) = released t1 ++ released t2.
Proof. apply omap_app. Qed.

(** Releasing the only user of a snip that was just allocated frees it. *)
Lemma release_fresh_snip (m : gmap positive nat) (id : positive) (sn : snip) :
  snip_id sn = id →
  m !! id = None →
  release_snip (<[id := 1%nat]> m) sn = m.
Proof.
  intros Hid Hnew. unfold release_snip. rewrite Hid, lookup_insert_eq.
  by apply delete_insert_id.
Qed.

Lemma fresh_snip_is_new (m : gmap positive nat) : m !! fresh (dom m) = None.
Proof. apply not_elem_of_dom, is_fresh. Qed.

(** The sink reads the writer context and never writes it, on any path. *)
Lemma _send_packet_writer_context (writer : option writer_ref)
    (iface : option target_ref) (buffer : option (list Byte.byte)) (len : Z)
    (o : send_packet_oracle) (s : state) :
  _writer_context (final (_send_packet writer iface buffer len o s))
  = _writer_context s.
Proof.
  unfold _send_packet, assert, deref, gnrc_pktbuf_add, gnrc_udp_hdr_build,
    gnrc_ipv6_hdr_build, gnrc_netif_hdr_build, gnrc_netapi_dispatch_send,
    gnrc_pktbuf_release, pktbuf_alloc.
  destruct writer, iface, buffer, (len =? 0); cbn; try reflexivity.
  destruct o as [[] [u|] [i|] [n|] d]; unfold_monad; cbn; try reflexivity.
  destruct (d <? 1); reflexivity.
Qed.

(** X2.  When the payload, the UDP header or the IPv6 header cannot be
    allocated, or when the dispatch finds no receiver, the sink returns and
    the packet buffer is as it was before the call. *)
Lemma send_packet_failure_releases (buf : list Byte.byte)
    (o : send_packet_oracle) (s : state) :
  buf ≠ [] →
  payload_ok o = false
  ∨ udp_hdr_res o = None
  ∨ ipv6_hdr_res o = None
  ∨ (is_Some (netif_hdr_res o) ∧ dispatch_res o < 1) →
  ∃ s', _send_packet (Some addr_writer) (Some addr_writer_context_target)
          (Some buf) (Z.of_nat (length buf)) o s = Ok tt s'
        ∧ pktbuf s' = pktbuf s.
Proof.
  intros Hbuf Hfail.
  unfold _send_packet, assert, deref, gnrc_pktbuf_add, gnrc_udp_hdr_build,
    gnrc_ipv6_hdr_build, gnrc_netif_hdr_build, gnrc_netapi_dispatch_send,
    gnrc_pktbuf_release, pktbuf_alloc.
  assert (Hlen : (Z.of_nat (length buf) =? 0) = false).
  { apply Z.eqb_neq. destruct buf; [done|cbn; lia]. }
  rewrite Hlen. cbn.
  destruct o as [pay udp ip nif d]; cbn in Hfail |- *.
  unfold_monad; cbn.
  destruct pay; cbn; [|eexists; split; reflexivity].
  destruct udp as [u|]; cbn.
  2:{ eexists; split; [reflexivity|]. cbn.
      apply release_fresh_snip; [reflexivity|apply fresh_snip_is_new]. }
  destruct ip as [i|]; cbn.
  2:{ eexists; split; [reflexivity|]. cbn.
      repeat (rewrite release_fresh_snip;
              [|reflexivity|apply fresh_snip_is_new]).
      reflexivity. }
  destruct Hfail as [?|[?|[?|[[n ->] Hd]]]]; try done.
  cbn. apply Z.ltb_lt in Hd. rewrite Hd.
  eexists; split; [reflexivity|]. cbn.
  repeat (rewrite release_fresh_snip; [|reflexivity|apply fresh_snip_is_new]).
  reflexivity.
Qed.

(** The sink returns unless the network-interface header is the first
    allocation to fail. *)
Lemma _send_packet_returns (buf : list Byte.byte) (o : send_packet_oracle)
    (s : state) :
  buf ≠ [] →
  payload_ok o = false ∨ udp_hdr_res o = None ∨ ipv6_hdr_res o = None
  ∨ is_Some (netif_hdr_res o) →
  ∃ s', _send_packet (Some addr_writer) (Some addr_writer_context_target)
          (Some buf) (Z.of_nat (length buf)) o s = Ok tt s'.
Proof.
  intros Hbuf Hnif.
  unfold _send_packet, assert, deref, gnrc_pktbuf_add, gnrc_udp_hdr_build,
    gnrc_ipv6_hdr_build, gnrc_netif_hdr_build, gnrc_netapi_dispatch_send,
    gnrc_pktbuf_release, pktbuf_alloc.
  assert (Hlen : (Z.of_nat (length buf) =? 0) = false).
  { apply Z.eqb_neq. destruct buf; [done|cbn; lia]. }
  rewrite Hlen. destruct o as [[] [u|] [i|] [n|] d]; unfold_monad; cbn in *;
    try (eexists; reflexivity).
  - destruct (d <? 1); eexists; reflexivity.
  - destruct Hnif as [?|[?|[?|[? ?]]]]; done.
Qed.

(** C3 (the code at the failing input).  When the payload, the UDP header
    and the IPv6 header are allocated and [gnrc_netif_hdr_build] answers
    NULL, the sink does not return: it dereferences the NULL header.  The
    three snips allocated before are still in the packet buffer and nothing
    was released. *)
Theorem send_packet_netif_alloc_failure (buf u i : list Byte.byte)
    (o : send_packet_oracle) (s : state) :
  buf ≠ [] →
  payload_ok o = true →
  udp_hdr_res o = Some u →
  ipv6_hdr_res o = Some i →
  netif_hdr_res o = None →
  ∃ s', _send_packet (Some addr_writer) (Some addr_writer_context_target)
          (Some buf) (Z.of_nat (length buf)) o s = Fault NullDereference s'
        ∧ size (pktbuf s') = (size (pktbuf s) + 3)%nat
        ∧ released (trace s') = released (trace s).
Proof.
  intros Hbuf Hpay Hudp Hip Hnif.
  unfold _send_packet, assert, deref, gnrc_pktbuf_add, gnrc_udp_hdr_build,
    gnrc_ipv6_hdr_build, gnrc_netif_hdr_build, gnrc_netapi_dispatch_send,
    gnrc_pktbuf_release, pktbuf_alloc.
  assert (Hlen : (Z.of_nat (length buf) =? 0) = false).
  { apply Z.eqb_neq. destruct buf; [done|cbn; lia]. }
  rewrite Hlen. destruct o as [pay udp ip nif d]; cbn in *. subst.
  unfold_monad; cbn.
  eexists; split; [reflexivity|]. cbn -[released]. split.
  - rewrite !map_size_insert_None by apply fresh_snip_is_new. lia.
  - rewrite !released_app. cbn. by rewrite !app_nil_r.
Qed.

End Transmission.

(** ** The writer context *)

Section Writer.
Context {P : Platform}.

Lemma send_packets_writer_context (cb : option callback) (out : flush_oracle)
    (s : state) :
  _writer_context (final (send_packets cb out s)) = _writer_context s.
Proof.
  revert s. induction out as [|[buf o] rest IH]; intros s; [reflexivity|].
  cbn [send_packets]. destruct cb as [[]|]; [|reflexivity].
  unfold_monad; cbn.
  pose proof (_send_packet_writer_context (Some addr_writer)
                (Some addr_writer_context_target) (Some buf)
                (Z.of_nat (length buf)) o s) as Hsink.
  destruct (_send_packet _ _ _ _ o s) as [[] s1|f s1]; cbn in Hsink |- *.
  - by rewrite IH.
  - exact Hsink.
Qed.

Lemma _send_rreq_run (pd : aodvv2_packet_data_t) (nh : ipv6_addr_t)
    (out : flush_oracle) (s : state) :
  let s1 :=
    set_trace (trace s ++ [EvMutexLock _writer_lock;
                           EvWriterCreateMessage RFC5444_MSGTYPE_RREQ;
                           EvWriterFlush])
      (set_writer_context
         {| target := target (_writer_context s); packet_data := pd;
            wtype := RFC5444_MSGTYPE_RREQ; target_addr := nh |} s) in
  _send_rreq (Some pd) (Some nh) out s =
  match send_packets (sendPacket (target (_writer_context s))) out s1 with
  | Ok _ s2 => Ok tt (set_trace (trace s2 ++ [EvMutexUnlock _writer_lock]) s2)
  | Fault f s2 => Fault f s2
  end.
Proof.
  unfold _send_rreq, assert, deref, update_writer_context,
    rfc5444_writer_create_message_alltarget, rfc5444_writer_flush.
  unfold_monad; cbn. rewrite <- !app_assoc. destruct pd; reflexivity.
Qed.

Lemma _send_rrep_run (pd : aodvv2_packet_data_t) (nh : ipv6_addr_t)
    (out : flush_oracle) (s : state) :
  let s1 :=
    set_trace (trace s ++ [EvMutexLock _writer_lock;
                           EvWriterCreateMessage RFC5444_MSGTYPE_RREP;
                           EvWriterFlush])
      (set_writer_context
         {| target := target (_writer_context s); packet_data := pd;
            wtype := RFC5444_MSGTYPE_RREP; target_addr := nh |} s) in
  _send_rrep (Some pd) (Some nh) out s =
  match send_packets (sendPacket (target (_writer_context s))) out s1 with
  | Ok _ s2 => Ok tt (set_trace (trace s2 ++ [EvMutexUnlock _writer_lock]) s2)
  | Fault f s2 => Fault f s2
  end.
Proof.
  unfold _send_rrep, assert, deref, update_writer_context,
    rfc5444_writer_create_message_alltarget, rfc5444_writer_flush.
  unfold_monad; cbn. rewrite <- !app_assoc. destruct pd; reflexivity.
Qed.

Lemma send_packets_return (out : flush_oracle) (s : state) :
  Forall (λ bo, bo.1 ≠ []
                ∧ (payload_ok bo.2 = false ∨ udp_hdr_res bo.2 = None
                   ∨ ipv6_hdr_res bo.2 = None ∨ is_Some (netif_hdr_res bo.2)))
    out →
  ∃ s', send_packets (Some cb_send_packet) out s = Ok tt s'.
Proof.
  intros Hout. revert s.
  induction Hout as [|[buf o] rest [Hbuf Ho] _ IH]; intros s.
  - by exists s.
  - cbn [send_packets]. unfold_monad; cbn.
    destruct (_send_packet_returns buf o s Hbuf Ho) as [s1 ->].
    apply IH.
Qed.

(** X3.  With the sink bound by [aodvv2_init], a send completes unless the
    network-interface header of one of its packets cannot be allocated. *)
Lemma send_completes (pd : aodvv2_packet_data_t) (nh : ipv6_addr_t)
    (out : flush_oracle) (s : state) :
  sendPacket (target (_writer_context s)) = Some cb_send_packet →
  Forall (λ bo, bo.1 ≠ []
                ∧ (payload_ok bo.2 = false ∨ udp_hdr_res bo.2 = None
                   ∨ ipv6_hdr_res bo.2 = None ∨ is_Some (netif_hdr_res bo.2)))
    out →
  (∃ s', _send_rreq (Some pd) (Some nh) out s = Ok tt s')
  ∧ (∃ s', _send_rrep (Some pd) (Some nh) out s = Ok tt s').
Proof.
  intros Hcb Hout. rewrite _send_rreq_run, _send_rrep_run, Hcb. cbv zeta.
  split.
  - match goal with |- context [send_packets _ out ?s1] =>
      destruct (send_packets_return out s1 Hout) as [s2 ->] end.
    by eexists.
  - match goal with |- context [send_packets _ out ?s1] =>
      destruct (send_packets_return out s1 Hout) as [s2 ->] end.
    by eexists.
Qed.

(** C9.  With a payload and a next hop that are not NULL, when [_send_rreq]
    (resp. [_send_rrep]) completes, the writer context holds the payload,
    unchanged, is tagged RREQ (resp. RREP) and is bound to the next hop.
    With a NULL payload or a NULL next hop both stop on the assertion, in
    the state they were called in. *)
Theorem send_binds_writer_context (pd : aodvv2_packet_data_t)
    (nh : ipv6_addr_t) (out : flush_oracle) (s : state) :
  (∀ s', _send_rreq (Some pd) (Some nh) out s = Ok tt s' →
         packet_data (_writer_context s') = pd
         ∧ wtype (_writer_context s') = RFC5444_MSGTYPE_RREQ
         ∧ target_addr (_writer_context s') = nh)
  ∧ (∀ s', _send_rrep (Some pd) (Some nh) out s = Ok tt s' →
           packet_data (_writer_context s') = pd
           ∧ wtype (_writer_context s') = RFC5444_MSGTYPE_RREP
           ∧ target_addr (_writer_context s') = nh)
  ∧ (∀ pd' nh', pd' = None ∨ nh' = None →
                _send_rreq pd' nh' out s = Fault AssertionFailure s
                ∧ _send_rrep pd' nh' out s = Fault AssertionFailure s).
Proof.
  split; [|split].
  - intros s'. rewrite _send_rreq_run. cbv zeta.
    match goal with |- context [send_packets ?cb out ?s1] =>
      pose proof (send_packets_writer_context cb out s1) as Hctx;
      destruct (send_packets cb out s1) as [[] s2|f s2]
    end; [|discriminate].
    intros [= <-]. cbn in Hctx |- *. by rewrite Hctx.
  - intros s'. rewrite _send_rrep_run. cbv zeta.
    match goal with |- context [send_packets ?cb out ?s1] =>
      pose proof (send_packets_writer_context cb out s1) as Hctx;
      destruct (send_packets cb out s1) as [[] s2|f s2]
    end; [|discriminate].
    intros [= <-]. cbn in Hctx |- *. by rewrite Hctx.
  - intros pd' nh' [-> | ->]; [|destruct pd']; split; reflexivity.
Qed.

End Writer.

Lemma send_packet_netif_alloc_failure_witness :
  ∃ s', _send_packet (P := Example.riot) (Some addr_writer)
          (Some addr_writer_context_target) (Some Example.encoded)
          (Z.of_nat (length Example.encoded)) Example.sink_no_netif_hdr
          Example.running = Fault NullDereference s'
        ∧ size (pktbuf s') = (size (pktbuf Example.running) + 3)%nat
        ∧ released (trace s') = released (trace Example.running).
Proof.
  apply (send_packet_netif_alloc_failure (P := Example.riot) Example.encoded
           (replicate 8 Byte.x00) (replicate 40 Byte.x00)
           Example.sink_no_netif_hdr Example.running);
    [discriminate|reflexivity..].
Defined.

Lemma send_binds_writer_context_witness :
  ∃ s1 s2,
    _send_rreq (Some Example.request) (Some Example.all_manet_routers)
      [(Example.encoded, Example.sink_ok)] Example.running = Ok tt s1
    ∧ _send_rrep (Some Example.request) (Some Example.all_manet_routers)
        [(Example.encoded, Example.sink_ok)] Example.running = Ok tt s2
    ∧ (packet_data (_writer_context s1) = Example.request
       ∧ wtype (_writer_context s1) = @RFC5444_MSGTYPE_RREQ Example.riot
       ∧ target_addr (_writer_context s1) = Example.all_manet_routers)
    ∧ (packet_data (_writer_context s2) = Example.request
       ∧ wtype (_writer_context s2) = @RFC5444_MSGTYPE_RREP Example.riot
       ∧ target_addr (_writer_context s2) = Example.all_manet_routers).
Proof.
  assert (∃ s1, _send_rreq (Some Example.request) (Some Example.all_manet_routers)
                  [(Example.encoded, Example.sink_ok)] Example.running = Ok tt s1)
    as [s1 Hq] by (eexists; vm_compute; reflexivity).
  assert (∃ s2, _send_rrep (Some Example.request) (Some Example.all_manet_routers)
                  [(Example.encoded, Example.sink_ok)] Example.running = Ok tt s2)
    as [s2 Hp] by (eexists; vm_compute; reflexivity).
  exists s1, s2.
  destruct (send_binds_writer_context (P := Example.riot) Example.request
              Example.all_manet_routers [(Example.encoded, Example.sink_ok)]
              Example.running) as (Hreq & Hrep & _).
  split; [exact Hq|]. split; [exact Hp|].
  split; [exact (Hreq s1 Hq)|exact (Hrep s2 Hp)].
Defined.

(** ** The reception pipeline *)

Section Reception.
Context {P : Platform}.

(** The run of [_receive] on a packet that passes both assertions. *)
Lemma receive_accepted_run (h : snip) (rest : gnrc_pktsnip_t)
    (data : list Byte.byte) (hdr : ipv6_hdr_t) (res : Z) (s : state) :
  snip_data h = Some data →
  0 < snip_size h →
  gnrc_ipv6_get_header (h :: rest) = Some hdr →
  ∃ s', _receive (h :: rest) res s = Ok tt s'
        ∧ released (trace s') = released (trace s) ++ [h :: rest]
        ∧ pktbuf s' = foldl release_snip (pktbuf s) (h :: rest)
        ∧ trace s' = trace s
            ++ [EvHexdump (take (Z.to_nat (snip_size h)) data);
                EvMutexLock _reader_lock;
                EvHandlePacketPrepare (src hdr);
                EvReaderHandlePacket data (snip_size h)]
            ++ (if res =? RFC5444_OKAY then []
                else [EvDebug "aodvv2: couldn't handle packet!\n"])
            ++ [EvMutexUnlock _reader_lock; EvPktbufRelease (h :: rest)].
Proof.
  intros Hdata Hsize Hhdr.
  unfold _receive, assert, deref, aodvv2_rfc5444_handle_packet_prepare,
    rfc5444_reader_handle_packet, gnrc_pktbuf_release.
  rewrite Hdata, Hhdr. apply Z.ltb_lt in Hsize. rewrite Hsize.
  unfold_monad; cbn -[released].
  destruct (res =? RFC5444_OKAY); cbn -[released];
    (eexists; split; [reflexivity|]); cbn -[released];
    rewrite !released_app, <- !app_assoc; cbn; rewrite ?app_nil_r; done.
Qed.

(** C6.  Every run of [_receive] that returns has given the packet to
    [gnrc_pktbuf_release] exactly once, as its last action, after the reader
    was used under its lock, on the success path and on the parse-failure
    path alike; a parse failure adds one log line and nothing else, and the
    function returns no value.  A run returns for every packet that is not
    NULL, has data, a size that is not zero and an IPv6 header. *)
Theorem receive_releases_once (pk : gnrc_pktsnip_t) (res : Z) (s : state) :
  (∀ s', _receive pk res s = Ok tt s' →
         released (trace s') = released (trace s) ++ [pk]
         ∧ pktbuf s' = foldl release_snip (pktbuf s) pk
         ∧ ∃ h rest data hdr,
             pk = h :: rest
             ∧ snip_data h = Some data
             ∧ 0 < snip_size h
             ∧ gnrc_ipv6_get_header pk = Some hdr
             ∧ trace s' = trace s
                 ++ [EvHexdump (take (Z.to_nat (snip_size h)) data);
                     EvMutexLock _reader_lock;
                     EvHandlePacketPrepare (src hdr);
                     EvReaderHandlePacket data (snip_size h)]
                 ++ (if res =? RFC5444_OKAY then []
                     else [EvDebug "aodvv2: couldn't handle packet!\n"])
                 ++ [EvMutexUnlock _reader_lock; EvPktbufRelease pk])
  ∧ (∀ h rest data hdr,
       pk = h :: rest →
       snip_data h = Some data →
       0 < snip_size h →
       gnrc_ipv6_get_header pk = Some hdr →
       ∃ s', _receive pk res s = Ok tt s').
Proof.
  split.
  - intros s' Hok.
    destruct pk as [|h rest]; [discriminate|].
    destruct (snip_data h) as [data|] eqn:Hdata.
    2:{ unfold _receive, assert in Hok. rewrite Hdata in Hok. discriminate. }
    destruct (0 <? snip_size h) eqn:Hsize.
    2:{ unfold _receive, assert in Hok. rewrite Hdata, Hsize in Hok.
        discriminate. }
    apply Z.ltb_lt in Hsize.
    destruct (gnrc_ipv6_get_header (h :: rest)) as [hdr|] eqn:Hhdr.
    2:{ unfold _receive, assert, deref in Hok.
        rewrite Hdata, (proj2 (Z.ltb_lt _ _) Hsize), Hhdr in Hok.
        unfold_monad. cbn in Hok. discriminate. }
    destruct (receive_accepted_run h rest data hdr res s Hdata Hsize Hhdr)
      as (s1 & Hrun1 & Hrel & Hbuf & Htr).
    rewrite Hrun1 in Hok. injection Hok as <-.
    split; [exact Hrel|]. split; [exact Hbuf|].
    exists h, rest, data, hdr. auto.
  - intros h rest data hdr -> Hdata Hsize Hhdr.
    destruct (receive_accepted_run h rest data hdr res s Hdata Hsize Hhdr)
      as (s' & Hok & _).
    by exists s'.
Qed.

End Reception.

Lemma receive_releases_once_witness :
  ∃ s', _receive (P := Example.riot) Example.inbound 1 Example.receiving = Ok tt s'
        ∧ released (trace s') = released (trace Example.receiving) ++ [Example.inbound]
        ∧ pktbuf s' = foldl release_snip (pktbuf Example.receiving) Example.inbound.
Proof.
  destruct (receive_releases_once (P := Example.riot) Example.inbound 1
              Example.receiving) as [Hreleased Hreturns].
  destruct (Hreturns Example.payload_snip
              [Example.udp_snip; Example.ipv6_snip; Example.netif_snip]
              Example.encoded
              {| src := Example.target_2001_db8_2;
                 dst := Example.all_manet_routers |}
              eq_refl eq_refl eq_refl eq_refl) as [s' Hok].
  exists s'. split; [exact Hok|].
  destruct (Hreleased s' Hok) as (Hrel & Hbuf & _). by split.
Defined.

(** A packet that is not NULL, has data and a size of 3, and carries no
    IPv6 header: [_receive] does not return, it stops on its second
    assertion, with the packet not released and all its snips still live. *)
Lemma receive_without_ipv6_header_not_released :
  ∃ h rest s',
    Example.inbound_no_ipv6 = h :: rest
    ∧ is_Some (snip_data h)
    ∧ 0 < snip_size h
    ∧ _receive (P := Example.riot) Example.inbound_no_ipv6 0 Example.receiving
      = Fault AssertionFailure s'
    ∧ released (trace s') = released (trace Example.receiving)
    ∧ pktbuf s' = pktbuf Example.receiving
    ∧ pktbuf s' !! snip_id h = Some 1%nat.
Proof.
  eexists _, _, _. split; [reflexivity|]. split; [by eexists|].
  split; [reflexivity|]. split; [vm_compute; reflexivity|].
  split; [vm_compute; reflexivity|]. split; [reflexivity|].
  vm_compute. reflexivity.
Qed.

(** ** The engine thread *)

Section Dispatch.
Context {P : Platform}.

(** The labels of the two control-plane cases differ from the labels of the
    cases tested before them. *)
Lemma control_labels_apart :
  GNRC_NETAPI_MSG_TYPE_GET ≠ AODVV2_MSG_TYPE_SEND_RREQ
  ∧ GNRC_NETAPI_MSG_TYPE_GET ≠ AODVV2_MSG_TYPE_SEND_RREP
  ∧ GNRC_NETAPI_MSG_TYPE_GET ≠ GNRC_NETAPI_MSG_TYPE_RCV
  ∧ GNRC_NETAPI_MSG_TYPE_SET ≠ AODVV2_MSG_TYPE_SEND_RREQ
  ∧ GNRC_NETAPI_MSG_TYPE_SET ≠ AODVV2_MSG_TYPE_SEND_RREP
  ∧ GNRC_NETAPI_MSG_TYPE_SET ≠ GNRC_NETAPI_MSG_TYPE_RCV.
Proof.
  pose proof switch_labels_distinct as H.
  repeat (apply NoDup_cons in H as [? H]).
  rewrite !not_elem_of_cons in *. intuition congruence.
Qed.

(** X13.  On a platform whose errno values fit 31 bits, the reply value is the
    two's complement encoding of [-ENOTSUP] on 32 bits. *)
Lemma reply_value_decodes :
  0 < ENOTSUP ≤ 2 ^ 31 →
  reply_value = 2 ^ 32 - ENOTSUP ∧ 2 ^ 31 ≤ reply_value < 2 ^ 32.
Proof.
  intros H. unfold reply_value.
  assert ((- ENOTSUP) mod 2 ^ 32 = 2 ^ 32 - ENOTSUP) as ->; [|lia].
  symmetry. apply (Z.mod_unique _ _ (-1)); lia.
Qed.
(** C7.  A message of type GET or SET is answered by [msg_reply] with an
    ACK whose value is [(uint32_t)(-ENOTSUP)]; a message whose type is none
    of the five case labels leaves one log line and nothing else.  In both
    cases the turn ends normally and the loop goes on with the messages
    that follow. *)
Theorem event_loop_answers_unsupported (msg : msg_t) (o : step_oracle)
    (rest : list (msg_t * step_oracle)) (s : state) :
  let replied :=
    set_trace (trace s ++ [EvMsgReply msg GNRC_NETAPI_MSG_TYPE_ACK
                             (RawValue ((- ENOTSUP) mod 2 ^ 32))]) s in
  let logged :=
    set_trace (trace s ++ [EvDebug "aodvv2: received unidentified message\n"]) s in
  (type msg = GNRC_NETAPI_MSG_TYPE_GET ∨ type msg = GNRC_NETAPI_MSG_TYPE_SET →
   _event_loop_body msg o s = Ok tt replied
   ∧ event_loop_turns ((msg, o) :: rest) s = event_loop_turns rest replied)
  ∧ (type msg ∉ [AODVV2_MSG_TYPE_SEND_RREQ; AODVV2_MSG_TYPE_SEND_RREP;
                 GNRC_NETAPI_MSG_TYPE_RCV; GNRC_NETAPI_MSG_TYPE_GET;
                 GNRC_NETAPI_MSG_TYPE_SET] →
     _event_loop_body msg o s = Ok tt logged
     ∧ event_loop_turns ((msg, o) :: rest) s = event_loop_turns rest logged).
Proof.
  intros replied logged.
  destruct control_labels_apart as (G1 & G2 & G3 & S1 & S2 & S3).
  split.
  - intros Hty.
    assert (Hbody : _event_loop_body msg o s = Ok tt replied).
    { unfold _event_loop_body.
      destruct Hty as [-> | ->].
      - rewrite (proj2 (Z.eqb_neq _ _) G1), (proj2 (Z.eqb_neq _ _) G2),
          (proj2 (Z.eqb_neq _ _) G3), Z.eqb_refl. reflexivity.
      - rewrite (proj2 (Z.eqb_neq _ _) S1), (proj2 (Z.eqb_neq _ _) S2),
          (proj2 (Z.eqb_neq _ _) S3), Z.eqb_refl, orb_true_r. reflexivity. }
    split; [exact Hbody|].
    cbn [event_loop_turns]. unfold mbind, M_bind. by rewrite Hbody.
  - intros Hty. rewrite !not_elem_of_cons in Hty.
    destruct Hty as (N1 & N2 & N3 & N4 & N5 & _).
    assert (Hbody : _event_loop_body msg o s = Ok tt logged).
    { unfold _event_loop_body.
      rewrite (proj2 (Z.eqb_neq _ _) N1), (proj2 (Z.eqb_neq _ _) N2),
        (proj2 (Z.eqb_neq _ _) N3), (proj2 (Z.eqb_neq _ _) N4),
        (proj2 (Z.eqb_neq _ _) N5). reflexivity. }
    split; [exact Hbody|].
    cbn [event_loop_turns]. unfold mbind, M_bind. by rewrite Hbody.
Qed.

End Dispatch.

Lemma event_loop_answers_unsupported_witness :
  let P := Example.riot in
  let s := Example.running in
  let ack m := EvMsgReply m 0x0205 (RawValue (2 ^ 32 - 134)) in
  let log := EvDebug "aodvv2: received unidentified message\n" in
  _event_loop_body Example.get_msg Example.no_oracle s
  = Ok tt (set_trace (trace s ++ [ack Example.get_msg]) s)
  ∧ _event_loop_body Example.set_msg Example.no_oracle s
    = Ok tt (set_trace (trace s ++ [ack Example.set_msg]) s)
  ∧ _event_loop_body Example.unknown_msg Example.no_oracle s
    = Ok tt (set_trace (trace s ++ [log]) s)
  ∧ ∃ s', event_loop_turns
            [(Example.get_msg, Example.no_oracle);
             (Example.unknown_msg, Example.no_oracle);
             (Example.set_msg, Example.no_oracle)] s = Ok tt s'
          ∧ trace s' = trace s ++ [ack Example.get_msg; log; ack Example.set_msg].
Proof.
  intros P s ack log.
  pose proof (event_loop_answers_unsupported (P := P) Example.get_msg
                Example.no_oracle [] s) as [Hget _].
  pose proof (event_loop_answers_unsupported (P := P) Example.set_msg
                Example.no_oracle [] s) as [Hset _].
  pose proof (event_loop_answers_unsupported (P := P) Example.unknown_msg
                Example.no_oracle [] s) as [_ Hunk].
  split; [apply Hget; left; reflexivity|].
  split; [apply Hset; right; reflexivity|].
  split.
  { apply Hunk.
    repeat (apply not_elem_of_cons; split; [by vm_compute|]).
    apply not_elem_of_nil. }
  eexists. split; vm_compute; reflexivity.
Defined.

(** ** Initialization *)

Section Initialization.
Context {P : Platform}.

(** The already-running test: with an identity recorded, a call returns it
    and touches nothing. *)
Lemma aodvv2_init_already_running (n : gnrc_netif_t) (o : init_oracle)
    (s : state) :
  _pid s ≠ KERNEL_PID_UNDEF →
  aodvv2_init (Some n) o s = Ok (_pid s) s.
Proof.
  intros Hpid. unfold aodvv2_init, assert. unfold_monad; cbn.
  by rewrite (proj2 (Z.eqb_neq _ _) Hpid).
Qed.

Lemma init_calls_already_running (calls : list (gnrc_netif_t * init_oracle))
    (s : state) :
  _pid s ≠ KERNEL_PID_UNDEF →
  init_calls calls s = Ok ((λ _, _pid s) <$> calls) s.
Proof.
  intros Hpid. induction calls as [|[n o] rest IH]; [reflexivity|].
  cbn [init_calls]. unfold mbind, M_bind.
  by rewrite aodvv2_init_already_running, IH.
Qed.

(** A call that returns a value that is not negative has recorded that
    value as the engine identity. *)
Lemma aodvv2_init_records_identity (n : gnrc_netif_t) (o : init_oracle)
    (s s1 : state) (r : Z) :
  aodvv2_init (Some n) o s = Ok r s1 →
  0 ≤ r →
  _pid s1 = r.
Proof.
  unfold aodvv2_init, assert, thread_create, gnrc_netapi_get, deref,
    update_writer_context.
  unfold_monad; cbn.
  destruct (_pid s =? KERNEL_PID_UNDEF); cbn.
  - destruct (thread_create_res o <? 0) eqn:Htc; cbn.
    + intros [= <- <-] Hr. apply Z.ltb_lt in Htc. lia.
    + destruct (netapi_get_res o <? 0); cbn.
      * intros [= <- <-] Hr. lia.
      * intros [= <- <-] _. reflexivity.
  - intros [= <- <-] _. reflexivity.
Qed.

(** C5.  After a call of [aodvv2_init] that returned an engine identity (a
    value that is not negative and is not [KERNEL_PID_UNDEF]), a further
    call with any interface and any answers of the environment returns the
    same identity and leaves the whole state, trace included, as it was: no
    thread is created, nothing is initialized or registered.  The same holds
    for any run of further calls. *)
Theorem init_idempotent (n1 : gnrc_netif_t) (o1 : init_oracle) (s s1 : state)
    (r : Z) :
  aodvv2_init (Some n1) o1 s = Ok r s1 →
  0 ≤ r →
  r ≠ KERNEL_PID_UNDEF →
  (∀ n2 o2, aodvv2_init (Some n2) o2 s1 = Ok r s1)
  ∧ (∀ later, init_calls later s1 = Ok ((λ _, r) <$> later) s1).
Proof.
  intros Hfirst Hr Hdef.
  pose proof (aodvv2_init_records_identity n1 o1 s s1 r Hfirst Hr) as Hpid.
  assert (Hrun : _pid s1 ≠ KERNEL_PID_UNDEF) by by rewrite Hpid.
  split.
  - intros n2 o2. rewrite <- Hpid. by apply aodvv2_init_already_running.
  - intros later. rewrite <- Hpid. by apply init_calls_already_running.
Qed.

(** C10.  When [thread_create] fails in a first call, the negative value it
    returned is the value of the call and stays in [_pid]; as that value is
    not [KERNEL_PID_UNDEF], every later call returns it at the
    already-running test, with the state unchanged: initialization is never
    attempted again. *)
Theorem init_thread_create_failure_is_permanent (n : gnrc_netif_t)
    (o : init_oracle) (s : state) :
  _pid s = KERNEL_PID_UNDEF →
  thread_create_res o < 0 →
  thread_create_res o ≠ KERNEL_PID_UNDEF →
  ∃ s1,
    aodvv2_init (Some n) o s = Ok (thread_create_res o) s1
    ∧ _pid s1 = thread_create_res o
    ∧ trace s1 = trace s ++ [EvMutexInit _writer_lock; EvMutexInit _reader_lock;
                             EvThreadCreate "aodvv2"]
    ∧ (∀ n' o', aodvv2_init (Some n') o' s1 = Ok (thread_create_res o) s1)
    ∧ (∀ later, init_calls later s1
                = Ok ((λ _, thread_create_res o) <$> later) s1).
Proof.
  intros Hundef Hneg Hdef.
  assert (Hfirst : ∃ s1, aodvv2_init (Some n) o s = Ok (thread_create_res o) s1
                         ∧ _pid s1 = thread_create_res o
                         ∧ trace s1 = trace s ++
                             [EvMutexInit _writer_lock; EvMutexInit _reader_lock;
                              EvThreadCreate "aodvv2"]).
  { unfold aodvv2_init, assert, thread_create. unfold_monad; cbn.
    rewrite Hundef, Z.eqb_refl. cbn.
    apply Z.ltb_lt in Hneg. rewrite Hneg.
    eexists. split; [reflexivity|]. cbn. by rewrite <- !app_assoc. }
  destruct Hfirst as (s1 & Hrun & Hpid & Htrace).
  exists s1. repeat split; try assumption.
  - intros n' o'. rewrite <- Hpid. apply aodvv2_init_already_running.
    by rewrite Hpid.
  - intros later. rewrite <- Hpid. apply init_calls_already_running.
    by rewrite Hpid.
Qed.

End Initialization.

Lemma init_idempotent_witness :
  (∀ n2 o2, aodvv2_init (P := Example.riot) (Some n2) o2 Example.running
            = Ok 3 Example.running)
  ∧ (∀ later, init_calls (P := Example.riot) later Example.running
              = Ok ((λ _, 3) <$> later) Example.running).
Proof.
  apply (init_idempotent (P := Example.riot) Example.netif7 Example.init_ok
           (Example.boot 3 1) Example.running 3).
  - vm_compute. reflexivity.
  - lia.
  - discriminate.
Defined.

Lemma init_thread_create_failure_is_permanent_witness :
  ∃ s1,
    aodvv2_init (P := Example.riot) (Some Example.netif7) Example.init_no_thread
      (Example.boot 3 1) = Ok (-139) s1
    ∧ _pid s1 = -139
    ∧ trace s1 = trace (Example.boot 3 1) ++
        [EvMutexInit _writer_lock; EvMutexInit _reader_lock;
         EvThreadCreate "aodvv2"]
    ∧ (∀ n' o', aodvv2_init (Some n') o' s1 = Ok (-139) s1)
    ∧ (∀ later, init_calls later s1 = Ok ((λ _, -139) <$> later) s1).
Proof.
  apply (init_thread_create_failure_is_permanent (P := Example.riot)
           Example.netif7 Example.init_no_thread (Example.boot 3 1)).
  - reflexivity.
  - reflexivity.
  - discriminate.
Defined.

(** * Further properties *)

(** ** The transmission sink, when it succeeds *)

Section Sink_success.
Context {P : Platform}.

Lemma take_whole (buf : list Byte.byte) :
  take (Z.to_nat (Z.of_nat (length buf))) buf = buf.
Proof. rewrite Nat2Z.id. apply firstn_all. Qed.

(** X1.  When every allocation succeeds and the dispatch finds a receiver,
    the sink returns after handing one chain to the UDP layer: a
    network-interface header bound to [_netif], an IPv6 header built for the
    address bound in the writer context, a UDP header built with the protocol
    port, as a [uint16_t] holds it, as source and as destination, and the
    payload, which is the encoded buffer.  The four snips are distinct and
    none of them was in the packet buffer before, and the sink itself
    releases nothing: the chain is left to the network stack. *)
Theorem send_packet_success_hands_chain (buf u i n : list Byte.byte)
    (o : send_packet_oracle) (s : state) :
  buf ≠ [] →
  payload_ok o = true →
  udp_hdr_res o = Some u →
  ipv6_hdr_res o = Some i →
  netif_hdr_res o = Some n →
  1 ≤ dispatch_res o →
  ∃ s' pay udp ip nif,
    _send_packet (Some addr_writer) (Some addr_writer_context_target)
      (Some buf) (Z.of_nat (length buf)) o s = Ok tt s'
    ∧ trace s' = trace s ++
        [EvHexdump buf;
         EvUdpHdrBuild (uint16_t CONFIG_AODVV2_RFC5444_PROTOCOL_PORT)
           (uint16_t CONFIG_AODVV2_RFC5444_PROTOCOL_PORT);
         EvIpv6HdrBuild (target_addr (_writer_context s));
         EvNetifHdrSetNetif (_netif s);
         EvDispatchSend GNRC_NETTYPE_UDP GNRC_NETREG_DEMUX_CTX_ALL
           [nif; ip; udp; pay]]
    ∧ snip_type <$> [nif; ip; udp; pay]
      = [GNRC_NETTYPE_NETIF; GNRC_NETTYPE_IPV6; GNRC_NETTYPE_UDP;
         GNRC_NETTYPE_UNDEF]
    ∧ snip_data pay = Some buf
    ∧ snip_size pay = Z.of_nat (length buf)
    ∧ NoDup (snip_id <$> [nif; ip; udp; pay])
    ∧ Forall (λ sn, pktbuf s !! snip_id sn = None) [nif; ip; udp; pay]
    ∧ released (trace s') = released (trace s).
Proof.
  intros Hbuf Hpay Hudp Hip Hnif Hd.
  unfold _send_packet, assert, deref, gnrc_pktbuf_add, gnrc_udp_hdr_build,
    gnrc_ipv6_hdr_build, gnrc_netif_hdr_build, gnrc_netapi_dispatch_send,
    gnrc_pktbuf_release, pktbuf_alloc.
  assert (Hlen : (Z.of_nat (length buf) =? 0) = false).
  { apply Z.eqb_neq. destruct buf; [done|cbn; lia]. }
  rewrite Hlen. destruct o as [pay udp ip nif d]; cbn in *. subst.
  assert (Hdd : (d <? 1) = false) by (apply Z.ltb_ge; lia).
  unfold_monad; cbn -[released]. rewrite Hdd, take_whole. cbn -[released].
  set (m := pktbuf s).
  set (a := fresh (dom m)).
  set (m1 := <[a := 1%nat]> m).
  set (b := fresh (dom m1)).
  set (m2 := <[b := 1%nat]> m1).
  set (c := fresh (dom m2)).
  set (m3 := <[c := 1%nat]> m2).
  set (e := fresh (dom m3)).
  pose proof (fresh_snip_is_new m) as Ha. fold a in Ha.
  pose proof (fresh_snip_is_new m1) as Hb. fold b in Hb.
  pose proof (fresh_snip_is_new m2) as Hc. fold c in Hc.
  pose proof (fresh_snip_is_new m3) as He. fold e in He.
  assert (Hba : b ≠ a).
  { intros Heq. rewrite Heq in Hb. unfold m1 in Hb.
    by rewrite lookup_insert_eq in Hb. }
  assert (Hcb : c ≠ b).
  { intros Heq. rewrite Heq in Hc. unfold m2 in Hc.
    by rewrite lookup_insert_eq in Hc. }
  assert (Hca : c ≠ a).
  { intros Heq. rewrite Heq in Hc. unfold m2, m1 in Hc.
    by rewrite lookup_insert_ne, lookup_insert_eq in Hc. }
  assert (Hec : e ≠ c).
  { intros Heq. rewrite Heq in He. unfold m3 in He.
    by rewrite lookup_insert_eq in He. }
  assert (Heb : e ≠ b).
  { intros Heq. rewrite Heq in He. unfold m3, m2 in He.
    by rewrite lookup_insert_ne, lookup_insert_eq in He. }
  assert (Hea : e ≠ a).
  { intros Heq. rewrite Heq in He. unfold m3, m2, m1 in He.
    by rewrite lookup_insert_ne, lookup_insert_ne, lookup_insert_eq in He. }
  assert (Hmb : m !! b = None).
  { unfold m1 in Hb. by rewrite lookup_insert_ne in Hb. }
  assert (Hmc : m !! c = None).
  { unfold m2, m1 in Hc. by rewrite !lookup_insert_ne in Hc. }
  assert (Hme : m !! e = None).
  { unfold m3, m2, m1 in He. by rewrite !lookup_insert_ne in He. }
  eexists _, _, _, _, _. split; [reflexivity|]. cbn -[released].
  split; [by rewrite <- !app_assoc|].
  split; [reflexivity|]. split; [reflexivity|]. split; [reflexivity|].
  split.
  { cbn. repeat (apply NoDup_cons; split); try apply NoDup_nil;
      rewrite ?not_elem_of_cons; repeat split; try done;
      try apply not_elem_of_nil. }
  split.
  { repeat (apply Forall_cons; split); [..|by apply Forall_nil]; done. }
  rewrite !released_app. cbn. by rewrite !app_nil_r.
Qed.

End Sink_success.

(** ** The engine's turns on send requests *)

Section Send_turns.
Context {P : Platform}.

(** The sink and the codec's flush leave the heap alone, on every path. *)
Lemma _send_packet_heap (writer : option writer_ref) (iface : option target_ref)
    (buffer : option (list Byte.byte)) (len : Z) (o : send_packet_oracle)
    (s : state) :
  heap (final (_send_packet writer iface buffer len o s)) = heap s.
Proof.
  unfold _send_packet, assert, deref, gnrc_pktbuf_add, gnrc_udp_hdr_build,
    gnrc_ipv6_hdr_build, gnrc_netif_hdr_build, gnrc_netapi_dispatch_send,
    gnrc_pktbuf_release, pktbuf_alloc.
  destruct writer, iface, buffer, (len =? 0); cbn; try reflexivity.
  destruct o as [[] [u|] [i|] [n|] d]; unfold_monad; cbn; try reflexivity.
  destruct (d <? 1); reflexivity.
Qed.

Lemma send_packets_heap (cb : option callback) (out : flush_oracle) (s : state) :
  heap (final (send_packets cb out s)) = heap s.
Proof.
  revert s. induction out as [|[buf o] rest IH]; intros s; [reflexivity|].
  cbn [send_packets]. destruct cb as [[]|]; [|reflexivity].
  unfold_monad; cbn.
  pose proof (_send_packet_heap (Some addr_writer)
                (Some addr_writer_context_target) (Some buf)
                (Z.of_nat (length buf)) o s) as Hsink.
  destruct (_send_packet _ _ _ _ o s) as [[] s1|f s1]; cbn in Hsink |- *.
  - by rewrite IH.
  - exact Hsink.
Qed.

(** What a send leaves in the heap and in the writer context. *)
Lemma _send_rreq_effect (pd : aodvv2_packet_data_t) (nh : ipv6_addr_t)
    (out : flush_oracle) (s : state) :
  heap (final (_send_rreq (Some pd) (Some nh) out s)) = heap s
  ∧ ∀ s', _send_rreq (Some pd) (Some nh) out s = Ok tt s' →
          packet_data (_writer_context s') = pd
          ∧ wtype (_writer_context s') = RFC5444_MSGTYPE_RREQ
          ∧ target_addr (_writer_context s') = nh.
Proof.
  rewrite _send_rreq_run. cbv zeta.
  match goal with |- context [send_packets ?cb out ?s1] =>
    pose proof (send_packets_writer_context cb out s1) as Hctx;
    pose proof (send_packets_heap cb out s1) as Hheap;
    destruct (send_packets cb out s1) as [[] s2|f s2]
  end; cbn in Hctx, Hheap |- *; (split; [exact Hheap|]).
  - intros s' [= <-]. cbn. by rewrite Hctx.
  - discriminate.
Qed.

Lemma _send_rrep_effect (pd : aodvv2_packet_data_t) (nh : ipv6_addr_t)
    (out : flush_oracle) (s : state) :
  heap (final (_send_rrep (Some pd) (Some nh) out s)) = heap s
  ∧ ∀ s', _send_rrep (Some pd) (Some nh) out s = Ok tt s' →
          packet_data (_writer_context s') = pd
          ∧ wtype (_writer_context s') = RFC5444_MSGTYPE_RREP
          ∧ target_addr (_writer_context s') = nh.
Proof.
  rewrite _send_rrep_run. cbv zeta.
  match goal with |- context [send_packets ?cb out ?s1] =>
    pose proof (send_packets_writer_context cb out s1) as Hctx;
    pose proof (send_packets_heap cb out s1) as Hheap;
    destruct (send_packets cb out s1) as [[] s2|f s2]
  end; cbn in Hctx, Hheap |- *; (split; [exact Hheap|]).
  - intros s' [= <-]. cbn. by rewrite Hctx.
  - discriminate.
Qed.

Lemma send_labels_apart :
  AODVV2_MSG_TYPE_SEND_RREP ≠ AODVV2_MSG_TYPE_SEND_RREQ
  ∧ GNRC_NETAPI_MSG_TYPE_RCV ≠ AODVV2_MSG_TYPE_SEND_RREQ
  ∧ GNRC_NETAPI_MSG_TYPE_RCV ≠ AODVV2_MSG_TYPE_SEND_RREP.
Proof.
  pose proof switch_labels_distinct as H.
  repeat (apply NoDup_cons in H as [? H]).
  rewrite !not_elem_of_cons in *. intuition congruence.
Qed.

(** The two send cases of the switch, as the send they end with: the block
    is read, then freed, then its copy is sent. *)
Lemma send_rreq_turn_run (msg : msg_t) (o : step_oracle) (p : positive)
    (m : aodvv2_msg_t) (s : state) :
  type msg = AODVV2_MSG_TYPE_SEND_RREQ →
  content msg = HeapPtr p →
  heap s !! p = Some m →
  _event_loop_body msg o s =
  _send_rreq (Some (pkt m)) (Some (next_hop m)) (flush_out o)
    (set_heap (delete p (heap s))
       (set_trace (trace s ++ [EvDebug "AODVV2_MSG_TYPE_SEND_RREQ\n"; EvFree p]) s)).
Proof.
  intros Hty Hc Hp. unfold _event_loop_body, take_msg, load, free.
  rewrite Hty, Z.eqb_refl, Hc. unfold_monad; cbn. rewrite Hp. cbn.
  rewrite Hp. cbn. rewrite <- app_assoc. reflexivity.
Qed.

Lemma send_rrep_turn_run (msg : msg_t) (o : step_oracle) (p : positive)
    (m : aodvv2_msg_t) (s : state) :
  type msg = AODVV2_MSG_TYPE_SEND_RREP →
  content msg = HeapPtr p →
  heap s !! p = Some m →
  _event_loop_body msg o s =
  _send_rrep (Some (pkt m)) (Some (next_hop m)) (flush_out o)
    (set_heap (delete p (heap s))
       (set_trace (trace s ++ [EvDebug "AODVV2_MSG_TYPE_SEND_RREP\n"; EvFree p]) s)).
Proof.
  intros Hty Hc Hp. unfold _event_loop_body, take_msg, load, free.
  destruct send_labels_apart as (Hne & _).
  rewrite Hty, (proj2 (Z.eqb_neq _ _) Hne), Z.eqb_refl, Hc.
  unfold_monad; cbn. rewrite Hp. cbn.
  rewrite Hp. cbn. rewrite <- app_assoc. reflexivity.
Qed.

(** X5.  On a SEND_RREQ or SEND_RREP message that points to a live block,
    the engine's turn frees that block whether the send then completes or
    faults: the heap at the end of the turn is the heap before it without the
    block.  When the turn completes, the writer context holds the packet
    data and the next hop that were in the block, tagged RREQ or RREP as the
    message type says. *)
Theorem send_turn_frees_block (msg : msg_t) (o : step_oracle) (p : positive)
    (m : aodvv2_msg_t) (s : state) :
  content msg = HeapPtr p →
  heap s !! p = Some m →
  type msg = AODVV2_MSG_TYPE_SEND_RREQ ∨ type msg = AODVV2_MSG_TYPE_SEND_RREP →
  heap (final (_event_loop_body msg o s)) = delete p (heap s)
  ∧ ∀ s', _event_loop_body msg o s = Ok tt s' →
          packet_data (_writer_context s') = pkt m
          ∧ target_addr (_writer_context s') = next_hop m
          ∧ wtype (_writer_context s')
            = (if type msg =? AODVV2_MSG_TYPE_SEND_RREQ
               then RFC5444_MSGTYPE_RREQ else RFC5444_MSGTYPE_RREP).
Proof.
  intros Hc Hp [Hty | Hty].
  - rewrite (send_rreq_turn_run msg o p m s Hty Hc Hp), Hty, Z.eqb_refl.
    match goal with |- context [_send_rreq (Some ?pd) (Some ?nh) ?out ?s1] =>
      destruct (_send_rreq_effect pd nh out s1) as [Hheap Hctx] end.
    split; [exact Hheap|]. intros s' Hrun.
    destruct (Hctx s' Hrun) as (? & ? & ?). done.
  - destruct send_labels_apart as (Hne & _).
    rewrite (send_rrep_turn_run msg o p m s Hty Hc Hp), Hty,
      (proj2 (Z.eqb_neq _ _) Hne).
    match goal with |- context [_send_rrep (Some ?pd) (Some ?nh) ?out ?s1] =>
      destruct (_send_rrep_effect pd nh out s1) as [Hheap Hctx] end.
    split; [exact Hheap|]. intros s' Hrun.
    destruct (Hctx s' Hrun) as (? & ? & ?). done.
Qed.

(** A send of the public API that returned 0 left one new block, holding
    the caller's data, and sent its address to the engine thread. *)
Lemma aodvv2_send_rreq_ok (pd : aodvv2_packet_data_t) (nh : ipv6_addr_t)
    (o : send_oracle) (s s1 : state) :
  aodvv2_send_rreq (Some pd) (Some nh) o s = Ok 0 s1 →
  heap s1 = <[fresh (dom (heap s)) := {| pkt := pd; next_hop := nh |}]> (heap s)
  ∧ trace s1 = trace s ++ [EvMsgSend AODVV2_MSG_TYPE_SEND_RREQ
                             (HeapPtr (fresh (dom (heap s)))) (_pid s)].
Proof.
  rewrite aodvv2_send_rreq_run.
  destruct (malloc_res o); [|discriminate]. cbv zeta.
  destruct (msg_send_res o <? 1); [discriminate|].
  intros [= <-]. done.
Qed.

Lemma aodvv2_send_rrep_ok (pd : aodvv2_packet_data_t) (nh : ipv6_addr_t)
    (o : send_oracle) (s s1 : state) :
  aodvv2_send_rrep (Some pd) (Some nh) o s = Ok 0 s1 →
  heap s1 = <[fresh (dom (heap s)) := {| pkt := pd; next_hop := nh |}]> (heap s)
  ∧ trace s1 = trace s ++ [EvMsgSend AODVV2_MSG_TYPE_SEND_RREP
                             (HeapPtr (fresh (dom (heap s)))) (_pid s)].
Proof.
  rewrite aodvv2_send_rrep_run.
  destruct (malloc_res o); [|discriminate]. cbv zeta.
  destruct (msg_send_res o <? 1); [discriminate|].
  intros [= <-]. done.
Qed.

(** X6.  What the public API queues is what the engine sends.  After
    [aodvv2_send_rreq] (resp. [aodvv2_send_rrep]) returned 0, the last effect
    is the IPC message that carries the new block to [_pid]; when the engine
    completes its turn on that message, the writer context holds the
    caller's packet data and next hop, tagged RREQ (resp. RREP), and the heap
    is again what it was before the call: the block was freed. *)
Theorem request_reaches_writer (pd : aodvv2_packet_data_t) (nh : ipv6_addr_t)
    (o : send_oracle) (so : step_oracle) (sender mt wt : Z) (s s1 s2 : state) :
  let p := fresh (dom (heap s)) in
  (aodvv2_send_rreq (Some pd) (Some nh) o s = Ok 0 s1
   ∧ mt = AODVV2_MSG_TYPE_SEND_RREQ ∧ wt = RFC5444_MSGTYPE_RREQ)
  ∨ (aodvv2_send_rrep (Some pd) (Some nh) o s = Ok 0 s1
     ∧ mt = AODVV2_MSG_TYPE_SEND_RREP ∧ wt = RFC5444_MSGTYPE_RREP) →
  _event_loop_body {| sender_pid := sender; type := mt; content := HeapPtr p |}
    so s1 = Ok tt s2 →
  last (trace s1) = Some (EvMsgSend mt (HeapPtr p) (_pid s))
  ∧ heap s2 = heap s
  ∧ packet_data (_writer_context s2) = pd
  ∧ wtype (_writer_context s2) = wt
  ∧ target_addr (_writer_context s2) = nh.
Proof.
  intros p Hsend Hturn.
  assert (Hs1 : heap s1 = <[p := {| pkt := pd; next_hop := nh |}]> (heap s)
                ∧ trace s1 = trace s ++ [EvMsgSend mt (HeapPtr p) (_pid s)]).
  { destruct Hsend as [(Hrun & -> & _) | (Hrun & -> & _)].
    - by apply aodvv2_send_rreq_ok in Hrun.
    - by apply aodvv2_send_rrep_ok in Hrun. }
  destruct Hs1 as [Hheap Htrace].
  assert (Hp : heap s1 !! p = Some {| pkt := pd; next_hop := nh |}).
  { rewrite Hheap. apply lookup_insert_eq. }
  split; [rewrite Htrace; apply last_snoc|].
  assert (Hback : delete p (heap s1) = heap s).
  { rewrite Hheap. apply delete_insert_id, fresh_block_is_new. }
  destruct Hsend as [(_ & -> & ->) | (_ & -> & ->)].
  - match type of Hturn with _event_loop_body ?msg _ _ = _ =>
      rewrite (send_rreq_turn_run msg so p _ s1 eq_refl eq_refl Hp) in Hturn end.
    cbn [pkt next_hop] in Hturn.
    match type of Hturn with _send_rreq (Some ?a) (Some ?b) ?out ?st = _ =>
      destruct (_send_rreq_effect a b out st) as [Hh Hctx] end.
    rewrite Hturn in Hh. cbn in Hh. rewrite Hback in Hh.
    split; [exact Hh|]. exact (Hctx s2 Hturn).
  - match type of Hturn with _event_loop_body ?msg _ _ = _ =>
      rewrite (send_rrep_turn_run msg so p _ s1 eq_refl eq_refl Hp) in Hturn end.
    cbn [pkt next_hop] in Hturn.
    match type of Hturn with _send_rrep (Some ?a) (Some ?b) ?out ?st = _ =>
      destruct (_send_rrep_effect a b out st) as [Hh Hctx] end.
    rewrite Hturn in Hh. cbn in Hh. rewrite Hback in Hh.
    split; [exact Hh|]. exact (Hctx s2 Hturn).
Qed.

(** X7.  After [aodvv2_find_route] returned 0, when the engine completes
    its turn on the queued message, the writer context holds the very
    request that was registered with the RREQ table, with this node's
    address and the issued sequence number as origin and the converted
    target with sequence number 0, bound to the all-routers address; the
    heap is what it was before the call. *)
Theorem discovery_reaches_writer (target : ipv6_addr_t) (o : send_oracle)
    (so : step_oracle) (sender : Z) (s s1 s2 : state) :
  let p := fresh (dom (heap s)) in
  aodvv2_find_route target o s = Ok 0 s1 →
  _event_loop_body {| sender_pid := sender; type := AODVV2_MSG_TYPE_SEND_RREQ;
                      content := HeapPtr p |} so s1 = Ok tt s2 →
  heap s2 = heap s
  ∧ rreqtable_added (trace s1)
    = rreqtable_added (trace s) ++ [packet_data (_writer_context s2)]
  ∧ orig_node (packet_data (_writer_context s2))
    = {| addr := _na_netif s; metric := 0;
         seqnum := aodvv2_seqnum_get (seqnum_st s) |}
  ∧ targ_node (packet_data (_writer_context s2))
    = {| addr := ipv6_addr_to_netaddr target; metric := 0; seqnum := 0 |}
  ∧ wtype (_writer_context s2) = RFC5444_MSGTYPE_RREQ
  ∧ target_addr (_writer_context s2) = ipv6_addr_all_manet_routers_link_local.
Proof.
  intros p. rewrite aodvv2_find_route_run. intros Hsend Hturn.
  pose proof (aodvv2_send_rreq_ok _ _ _ _ _ Hsend) as [Hheap Htrace].
  cbn [heap trace set_trace set_seqnum_st] in Hheap, Htrace. fold p in Hheap, Htrace.
  assert (Hp : heap s1 !! p = Some _) by (rewrite Hheap; apply lookup_insert_eq).
  assert (Hback : delete p (heap s1) = heap s).
  { rewrite Hheap. apply delete_insert_id, fresh_block_is_new. }
  match type of Hturn with _event_loop_body ?msg _ _ = _ =>
      rewrite (send_rreq_turn_run msg so p _ s1 eq_refl eq_refl Hp) in Hturn end.
  cbn [pkt next_hop] in Hturn.
  match type of Hturn with _send_rreq (Some ?a) (Some ?b) ?out ?st = _ =>
    destruct (_send_rreq_effect a b out st) as [Hh Hctx] end.
  rewrite Hturn in Hh. cbn in Hh. rewrite Hback in Hh.
  destruct (Hctx s2 Hturn) as (Hpd & Hwt & Hnh).
  split; [exact Hh|]. rewrite Hpd, Htrace.
  split; [|done].
  rewrite <- app_assoc, !rreqtable_added_app. cbn. done.
Qed.

End Send_turns.

(** ** Reception, turn by turn *)

Section Reception_turns.
Context {P : Platform}.

(** X4.  [_receive] either returns or stops on an assertion, and never
    faults otherwise.  It returns exactly for a packet that is not NULL, has
    data, a size above zero and an IPv6 header, and then it has released
    that packet last.  When it stops, it has logged at most the hex dump:
    the reader lock was not taken, the codec was not called, and the packet
    buffer and the heap are as before. *)
Theorem receive_returns_or_asserts (pk : gnrc_pktsnip_t) (res : Z) (s : state) :
  let accepted :=
    ∃ h rest, pk = h :: rest ∧ is_Some (snip_data h) ∧ 0 < snip_size h
              ∧ is_Some (gnrc_ipv6_get_header pk) in
  (accepted
   ∧ ∃ s', _receive pk res s = Ok tt s'
           ∧ released (trace s') = released (trace s) ++ [pk])
  ∨ (¬ accepted
     ∧ ∃ s', _receive pk res s = Fault AssertionFailure s'
             ∧ (trace s' = trace s ∨ ∃ d, trace s' = trace s ++ [EvHexdump d])
             ∧ pktbuf s' = pktbuf s
             ∧ heap s' = heap s).
Proof.
  intros accepted. unfold accepted.
  destruct pk as [|h rest].
  { right. split; [intros (? & ? & ? & _); discriminate|].
    exists s. cbn. auto. }
  unfold _receive, assert, deref, aodvv2_rfc5444_handle_packet_prepare,
    rfc5444_reader_handle_packet, gnrc_pktbuf_release.
  destruct (snip_data h) as [data|] eqn:Hdata; cbn.
  2:{ right. split.
      - intros (h' & rest' & [= <- <-] & [? Hsome] & _). congruence.
      - exists s. unfold_monad. cbn. auto. }
  destruct (0 <? snip_size h) eqn:Hsize; cbn.
  2:{ right. split.
      - intros (h' & rest' & [= <- <-] & _ & Hpos & _).
        apply Z.ltb_ge in Hsize. lia.
      - exists s. unfold_monad. cbn. auto. }
  destruct (gnrc_ipv6_get_header (h :: rest)) as [hdr|] eqn:Hhdr.
  2:{ right. split.
      - intros (_ & _ & _ & _ & _ & [? Hsome]). discriminate.
      - unfold_monad; cbn. eexists. split; [reflexivity|]. cbn.
        split; [right; by eexists|done]. }
  left. split.
  { exists h, rest. apply Z.ltb_lt in Hsize. rewrite Hdata. eauto. }
  unfold_monad; cbn -[released].
  destruct (res =? RFC5444_OKAY); cbn -[released];
    (eexists; split; [reflexivity|]); cbn -[released];
    rewrite !released_app; cbn; rewrite ?app_nil_r; done.
Qed.

(** One turn on a message of type RCV whose packet [_receive] accepts. *)
Lemma rcv_turn_run (msg : msg_t) (o : step_oracle) (h : snip)
    (rest : gnrc_pktsnip_t) (data : list Byte.byte) (hdr : ipv6_hdr_t)
    (s : state) :
  type msg = GNRC_NETAPI_MSG_TYPE_RCV →
  content msg = PktPtr (h :: rest) →
  snip_data h = Some data →
  0 < snip_size h →
  gnrc_ipv6_get_header (h :: rest) = Some hdr →
  ∃ s', _event_loop_body msg o s = Ok tt s'
        ∧ released (trace s') = released (trace s) ++ [h :: rest]
        ∧ pktbuf s' = foldl release_snip (pktbuf s) (h :: rest)
        ∧ heap s' = heap s
        ∧ _writer_context s' = _writer_context s
        ∧ _pid s' = _pid s.
Proof.
  intros Hty Hc Hdata Hsize Hhdr.
  destruct send_labels_apart as (_ & N1 & N2).
  unfold _event_loop_body, as_pktsnip.
  rewrite Hty, (proj2 (Z.eqb_neq _ _) N1), (proj2 (Z.eqb_neq _ _) N2),
    Z.eqb_refl, Hc.
  unfold _receive, assert, deref, aodvv2_rfc5444_handle_packet_prepare,
    rfc5444_reader_handle_packet, gnrc_pktbuf_release.
  unfold_monad; cbn -[released].
  rewrite Hdata, Hhdr. apply Z.ltb_lt in Hsize. rewrite Hsize.
  cbn -[released].
  destruct (parse_res o =? RFC5444_OKAY); cbn -[released];
    (eexists; split; [reflexivity|]); cbn -[released];
    rewrite !released_app; cbn; rewrite ?app_nil_r; done.
Qed.

(** One turn on a message that the switch answers or logs: one effect and
    nothing else. *)
Lemma control_turn_run (msg : msg_t) (o : step_oracle) (s : state) :
  type msg = GNRC_NETAPI_MSG_TYPE_GET ∨ type msg = GNRC_NETAPI_MSG_TYPE_SET
  ∨ type msg ∉ [AODVV2_MSG_TYPE_SEND_RREQ; AODVV2_MSG_TYPE_SEND_RREP;
                GNRC_NETAPI_MSG_TYPE_RCV; GNRC_NETAPI_MSG_TYPE_GET;
                GNRC_NETAPI_MSG_TYPE_SET] →
  type msg ≠ GNRC_NETAPI_MSG_TYPE_RCV
  ∧ ∃ e, _event_loop_body msg o s = Ok tt (set_trace (trace s ++ [e]) s)
         ∧ released_of e = None.
Proof.
  destruct control_labels_apart as (G1 & G2 & G3 & S1 & S2 & S3).
  unfold _event_loop_body. intros [Hty | [Hty | Hty]].
  - split; [congruence|]. rewrite Hty.
    rewrite (proj2 (Z.eqb_neq _ _) G1), (proj2 (Z.eqb_neq _ _) G2),
      (proj2 (Z.eqb_neq _ _) G3), Z.eqb_refl. by eexists.
  - split; [congruence|]. rewrite Hty.
    rewrite (proj2 (Z.eqb_neq _ _) S1), (proj2 (Z.eqb_neq _ _) S2),
      (proj2 (Z.eqb_neq _ _) S3), Z.eqb_refl, orb_true_r. by eexists.
  - rewrite !not_elem_of_cons in Hty.
    destruct Hty as (N1 & N2 & N3 & N4 & N5 & _). split; [exact N3|].
    rewrite (proj2 (Z.eqb_neq _ _) N1), (proj2 (Z.eqb_neq _ _) N2),
      (proj2 (Z.eqb_neq _ _) N3), (proj2 (Z.eqb_neq _ _) N4),
      (proj2 (Z.eqb_neq _ _) N5). by eexists.
Qed.

Lemma released_snoc (tr : list event) (e : event) :
  released (tr ++ [e])
  = released tr ++ match released_of e with Some pk => [pk] | None => [] end.
Proof. rewrite released_app. reflexivity. Qed.

Lemma inbound_packets_cons (msg : msg_t) (o : step_oracle)
    (rest : list (msg_t * step_oracle)) :
  inbound_packets ((msg, o) :: rest)
  = match inbound_packet_of msg with
    | Some pk => pk :: inbound_packets rest
    | None => inbound_packets rest
    end.
Proof. reflexivity. Qed.

(** X8.  Over any run of messages that are either RCV messages whose
    packet [_receive] accepts, or GET, SET or unrecognized messages, the loop
    never stops; it releases exactly the received packets, each once, in
    their order of arrival, and it never touches the heap, the writer
    context or [_pid]. *)
Theorem reception_loop_releases_each_packet
    (inbox : list (msg_t * step_oracle)) (s : state) :
  Forall (λ mo,
            (type mo.1 = GNRC_NETAPI_MSG_TYPE_RCV
             ∧ ∃ h rest data hdr,
                 content mo.1 = PktPtr (h :: rest)
                 ∧ snip_data h = Some data
                 ∧ 0 < snip_size h
                 ∧ gnrc_ipv6_get_header (h :: rest) = Some hdr)
            ∨ type mo.1 = GNRC_NETAPI_MSG_TYPE_GET
            ∨ type mo.1 = GNRC_NETAPI_MSG_TYPE_SET
            ∨ type mo.1 ∉ [AODVV2_MSG_TYPE_SEND_RREQ; AODVV2_MSG_TYPE_SEND_RREP;
                           GNRC_NETAPI_MSG_TYPE_RCV; GNRC_NETAPI_MSG_TYPE_GET;
                           GNRC_NETAPI_MSG_TYPE_SET])
    inbox →
  ∃ s', event_loop_turns inbox s = Ok tt s'
        ∧ released (trace s') = released (trace s) ++ inbound_packets inbox
        ∧ pktbuf s'
          = foldl (λ m pk, foldl release_snip m pk) (pktbuf s)
              (inbound_packets inbox)
        ∧ heap s' = heap s
        ∧ _writer_context s' = _writer_context s
        ∧ _pid s' = _pid s.
Proof.
  intros Hin. revert s.
  induction Hin as [|[msg o] rest Hmsg _ IH]; intros s.
  - exists s. cbn. by rewrite app_nil_r.
  - cbn [event_loop_turns]. unfold mbind, M_bind.
    rewrite inbound_packets_cons. cbn [fst] in Hmsg.
    destruct Hmsg as [(Hty & h & tl & data & hdr & Hc & Hd & Hs & Hh) | Hctl].
    + destruct (rcv_turn_run msg o h tl data hdr s Hty Hc Hd Hs Hh)
        as (s1 & -> & Hrel & Hbuf & Hheap & Hctx & Hpid).
      destruct (IH s1) as (s' & -> & Hrel' & Hbuf' & Hheap' & Hctx' & Hpid').
      exists s'. split; [reflexivity|].
      unfold inbound_packet_of. rewrite Hty, Z.eqb_refl, Hc.
      cbn [foldl]. rewrite Hrel', Hrel, Hbuf', Hbuf, <- app_assoc.
      repeat split; congruence.
    + destruct (control_turn_run msg o s Hctl) as (Hne & e & -> & He).
      destruct (IH (set_trace (trace s ++ [e]) s))
        as (s' & -> & Hrel' & Hbuf' & Hheap' & Hctx' & Hpid').
      exists s'. split; [reflexivity|].
      unfold inbound_packet_of. rewrite (proj2 (Z.eqb_neq _ _) Hne).
      rewrite Hrel', Hbuf'. cbn [trace set_trace pktbuf].
      rewrite released_snoc, He, app_nil_r. done.
Qed.

End Reception_turns.

(** ** Initialization, path by path *)

Section Initialization_paths.
Context {P : Platform}.

(** X9.  A first call of [aodvv2_init] in which the thread is created and
    the interface gives its address returns the thread's PID and leaves the
    engine bound: [_pid] is that PID, [_netif] the interface, [_na_netif]
    the converted interface address, the netreg entry registers the protocol
    port for the thread, the writer and its target point to the static
    buffers with the configured sizes and [_send_packet] as sink, the
    sequence-number store is initialized, and the effects are, in this
    order: thread, address, tables, own address added as client, netreg,
    reader under its lock, writer under its lock. *)
Theorem init_success_binds_engine (n : gnrc_netif_t) (o : init_oracle)
    (s : state) :
  _pid s = KERNEL_PID_UNDEF →
  0 ≤ thread_create_res o →
  0 ≤ netapi_get_res o →
  let pid := thread_create_res o in
  let entry := {| demux_ctx := CONFIG_AODVV2_RFC5444_PROTOCOL_PORT;
                  target_pid := pid |} in
  let w := {| msg_buffer := Some _writer_msg_buffer;
              msg_size := CONFIG_AODVV2_RFC5444_PACKET_SIZE;
              addrtlv_buffer := Some _writer_msg_addrtlvs;
              addrtlv_size := CONFIG_AODVV2_RFC5444_ADDR_TLVS_SIZE |} in
  ∃ s', aodvv2_init (Some n) o s = Ok pid s'
        ∧ _pid s' = pid
        ∧ _netif s' = Some n
        ∧ _na_netif s' = ipv6_addr_to_netaddr (netif_addr o)
        ∧ netreg s' = entry
        ∧ _writer s' = w
        ∧ target (_writer_context s')
          = {| packet_buffer := Some _writer_pkt_buffer;
               packet_size := CONFIG_AODVV2_RFC5444_PACKET_SIZE;
               sendPacket := Some cb_send_packet |}
        ∧ seqnum_st s' = aodvv2_seqnum_init (seqnum_st s)
        ∧ heap s' = heap s
        ∧ pktbuf s' = pktbuf s
        ∧ trace s' = trace s ++
            [EvMutexInit _writer_lock; EvMutexInit _reader_lock;
             EvThreadCreate "aodvv2"; EvNetapiGet (netif_pid n);
             EvSeqnumInit; EvRoutingtableInit; EvClientInit; EvRreqtableInit;
             EvClientAdd (netif_addr o) AODVV2_PREFIX_LEN
               CONFIG_AODVV2_DEFAULT_METRIC;
             EvNetregRegister GNRC_NETTYPE_UDP entry;
             EvMutexLock _reader_lock; EvReaderInit; EvReaderRrepRegister;
             EvReaderRreqRegister; EvMutexUnlock _reader_lock;
             EvMutexLock _writer_lock; EvWriterInit w; EvWriterRegisterTarget;
             EvWriterRegister; EvMutexUnlock _writer_lock].
Proof.
  intros Hundef Htc Hget pid entry w.
  unfold aodvv2_init, assert, thread_create, gnrc_netapi_get, deref,
    update_writer_context.
  unfold_monad; cbn.
  rewrite Hundef, Z.eqb_refl. cbn.
  rewrite (proj2 (Z.ltb_ge _ _) Htc), (proj2 (Z.ltb_ge _ _) Hget). cbn.
  eexists. split; [reflexivity|]. cbn.
  repeat (split; [reflexivity|]). by rewrite <- !app_assoc.
Qed.

(** X10.  When the thread is created and [gnrc_netapi_get] fails, the
    first call returns -1 but the thread exists and [_pid] and [_netif]
    stay set, while nothing else was done: no table is initialized, the
    netreg entry, the writer and the writer context are untouched.  Every
    later call then returns the thread's PID at the already-running test and
    changes nothing, so the engine is never initialized. *)
Theorem init_address_failure_leaves_thread (n : gnrc_netif_t)
    (o : init_oracle) (s : state) :
  _pid s = KERNEL_PID_UNDEF →
  0 ≤ thread_create_res o →
  thread_create_res o ≠ KERNEL_PID_UNDEF →
  netapi_get_res o < 0 →
  ∃ s', aodvv2_init (Some n) o s = Ok (-1) s'
        ∧ _pid s' = thread_create_res o
        ∧ _netif s' = Some n
        ∧ _na_netif s' = _na_netif s
        ∧ netreg s' = netreg s
        ∧ _writer s' = _writer s
        ∧ _writer_context s' = _writer_context s
        ∧ seqnum_st s' = seqnum_st s
        ∧ trace s' = trace s ++
            [EvMutexInit _writer_lock; EvMutexInit _reader_lock;
             EvThreadCreate "aodvv2"; EvNetapiGet (netif_pid n);
             EvDebug "aodvv2_init: can't get iface IPv6 address\n"]
        ∧ (∀ n' o', aodvv2_init (Some n') o' s' = Ok (thread_create_res o) s').
Proof.
  intros Hundef Htc Hdef Hget.
  assert (Hfirst :
    ∃ s', aodvv2_init (Some n) o s = Ok (-1) s'
          ∧ _pid s' = thread_create_res o
          ∧ _netif s' = Some n
          ∧ _na_netif s' = _na_netif s
          ∧ netreg s' = netreg s
          ∧ _writer s' = _writer s
          ∧ _writer_context s' = _writer_context s
          ∧ seqnum_st s' = seqnum_st s
          ∧ trace s' = trace s ++
              [EvMutexInit _writer_lock; EvMutexInit _reader_lock;
               EvThreadCreate "aodvv2"; EvNetapiGet (netif_pid n);
               EvDebug "aodvv2_init: can't get iface IPv6 address\n"]).
  { unfold aodvv2_init, assert, thread_create, gnrc_netapi_get, deref.
    unfold_monad; cbn.
    rewrite Hundef, Z.eqb_refl. cbn.
    rewrite (proj2 (Z.ltb_ge _ _) Htc), (proj2 (Z.ltb_lt _ _) Hget). cbn.
    eexists. split; [reflexivity|]. cbn.
    repeat (split; [reflexivity|]). by rewrite <- !app_assoc. }
  destruct Hfirst as (s' & Hrun & Hpid & H1 & H2 & H3 & H4 & H5 & H6 & H7).
  exists s'. repeat (split; [assumption|]).
  intros n' o'. rewrite <- Hpid. apply aodvv2_init_already_running.
  by rewrite Hpid.
Qed.

(** X11.  After a successful first [aodvv2_init], the first route
    discovery returns and stamps its request with the converted address
    that the interface gave during initialization and with the first value
    of the freshly initialized sequence-number store, which it then
    increments; when the message is allocated, it is sent to the thread
    that initialization created. *)
Theorem init_then_first_discovery (n : gnrc_netif_t) (o : init_oracle)
    (target : ipv6_addr_t) (fo : send_oracle) (s : state) :
  _pid s = KERNEL_PID_UNDEF →
  0 ≤ thread_create_res o →
  0 ≤ netapi_get_res o →
  ∃ s1 r s2 pd,
    aodvv2_init (Some n) o s = Ok (thread_create_res o) s1
    ∧ aodvv2_find_route target fo s1 = Ok r s2
    ∧ rreqtable_added (trace s2) = rreqtable_added (trace s) ++ [pd]
    ∧ addr (orig_node pd) = ipv6_addr_to_netaddr (netif_addr o)
    ∧ seqnum (orig_node pd)
      = aodvv2_seqnum_get (aodvv2_seqnum_init (seqnum_st s))
    ∧ seqnum_st s2
      = aodvv2_seqnum_inc (aodvv2_seqnum_init (seqnum_st s))
    ∧ (is_Some (malloc_res fo) →
       EvMsgSend AODVV2_MSG_TYPE_SEND_RREQ (HeapPtr (fresh (dom (heap s))))
         (thread_create_res o) ∈ trace s2).
Proof.
  intros Hundef Htc Hget.
  assert (Hinit :
    ∃ s1, aodvv2_init (Some n) o s = Ok (thread_create_res o) s1
          ∧ _pid s1 = thread_create_res o
          ∧ _na_netif s1 = ipv6_addr_to_netaddr (netif_addr o)
          ∧ seqnum_st s1 = aodvv2_seqnum_init (seqnum_st s)
          ∧ heap s1 = heap s
          ∧ rreqtable_added (trace s1) = rreqtable_added (trace s)).
  { unfold aodvv2_init, assert, thread_create, gnrc_netapi_get, deref,
      update_writer_context.
    unfold_monad; cbn -[rreqtable_added].
    rewrite Hundef, Z.eqb_refl. cbn -[rreqtable_added].
    rewrite (proj2 (Z.ltb_ge _ _) Htc), (proj2 (Z.ltb_ge _ _) Hget).
    cbn -[rreqtable_added].
    eexists. split; [reflexivity|]. cbn -[rreqtable_added].
    repeat (split; [reflexivity|]).
    rewrite !rreqtable_added_app. cbn. by rewrite !app_nil_r. }
  destruct Hinit as (s1 & Hrun & Hpid & Hna & Hsq & Hheap & Hadded).
  exists s1.
  rewrite aodvv2_find_route_run, aodvv2_send_rreq_run.
  rewrite Hna, Hsq. cbn [heap trace _pid set_trace set_seqnum_st].
  rewrite Hheap, Hpid.
  destruct (malloc_res fo) as [junk|]; cbv zeta;
    [destruct (msg_send_res fo <? 1)|];
    eexists _, _, _; (split; [exact Hrun|]); (split; [reflexivity|]);
    cbn [trace set_trace set_heap seqnum_st set_seqnum_st];
    rewrite <- ?app_assoc, !rreqtable_added_app, Hadded;
    (split; [cbn; rewrite ?app_nil_r; reflexivity|]);
    (split; [reflexivity|]); (split; [reflexivity|]); (split; [reflexivity|]).
  - intros _. rewrite !elem_of_app, !elem_of_cons. auto.
  - intros _. rewrite !elem_of_app, !elem_of_cons. auto.
  - intros [? ?]. discriminate.
Qed.

End Initialization_paths.

(** ** Route discovery when the send fails *)

Section Discovery_failure.
Context {P : Platform}.

(** X12.  [aodvv2_find_route] returns 0 or -1, and -1 exactly when
    [malloc] fails or [msg_send] returns less than 1.  Nothing is rolled
    back on failure: whatever the value returned, the store has been
    incremented and the request, stamped with the value issued, has been
    registered with the RREQ table. *)
Theorem find_route_keeps_request_on_failure (target : ipv6_addr_t)
    (o : send_oracle) (s : state) :
  ∃ r s' pd,
    aodvv2_find_route target o s = Ok r s'
    ∧ (r = 0 ∨ r = -1)
    ∧ (r = -1 ↔ malloc_res o = None ∨ msg_send_res o < 1)
    ∧ seqnum_st s' = aodvv2_seqnum_inc (seqnum_st s)
    ∧ rreqtable_added (trace s') = rreqtable_added (trace s) ++ [pd]
    ∧ seqnum (orig_node pd) = aodvv2_seqnum_get (seqnum_st s)
    ∧ (malloc_res o = None → heap s' = heap s).
Proof.
  rewrite aodvv2_find_route_run, aodvv2_send_rreq_run.
  destruct (malloc_res o) as [junk|]; cbv zeta;
    [destruct (msg_send_res o <? 1) eqn:Hsend|];
    eexists _, _, _; (split; [reflexivity|]);
    cbn [trace set_trace set_heap seqnum_st set_seqnum_st heap];
    rewrite <- ?app_assoc, !rreqtable_added_app.
  - apply Z.ltb_lt in Hsend. split; [by right|]. split; [naive_solver|].
    split; [reflexivity|]. split; [cbn; by rewrite ?app_nil_r|].
    split; [reflexivity|]. discriminate.
  - apply Z.ltb_ge in Hsend. split; [by left|].
    split; [split; [discriminate|intros [?|?]; [discriminate|lia]]|].
    split; [reflexivity|]. split; [cbn; by rewrite ?app_nil_r|].
    split; [reflexivity|]. discriminate.
  - split; [by right|]. split; [naive_solver|].
    split; [reflexivity|]. split; [cbn; by rewrite ?app_nil_r|].
    split; [reflexivity|]. done.
Qed.

End Discovery_failure.

(** ** The statements above on the example platform *)

Lemma send_packet_success_hands_chain_witness :
  ∃ s' pay udp ip nif,
    _send_packet (P := Example.riot) (Some addr_writer)
      (Some addr_writer_context_target) (Some Example.encoded)
      (Z.of_nat (length Example.encoded)) Example.sink_ok Example.running
    = Ok tt s'
    ∧ EvUdpHdrBuild 269 269 ∈ trace s'
    ∧ last (trace s')
      = Some (EvDispatchSend GNRC_NETTYPE_UDP
                (@GNRC_NETREG_DEMUX_CTX_ALL Example.riot) [nif; ip; udp; pay])
    ∧ snip_data pay = Some Example.encoded
    ∧ NoDup (snip_id <$> [nif; ip; udp; pay])
    ∧ released (trace s') = released (trace Example.running).
Proof.
  destruct (send_packet_success_hands_chain (P := Example.riot) Example.encoded
              (replicate 8 Byte.x00) (replicate 40 Byte.x00)
              (replicate 4 Byte.x00) Example.sink_ok Example.running)
    as (s' & pay & udp & ip & nif & Hrun & Htr & _ & Hdata & _ & Hdup & _ & Hrel);
    [discriminate|reflexivity|reflexivity|reflexivity|reflexivity|
     cbn; lia|].
  exists s', pay, udp, ip, nif. split; [exact Hrun|].
  split.
  { rewrite Htr, elem_of_app. right. apply list_elem_of_further, list_elem_of_here. }
  split; [rewrite Htr, last_app; reflexivity|].
  auto.
Defined.

Lemma send_packet_failure_releases_witness :
  ∃ s', _send_packet (P := Example.riot) (Some addr_writer)
          (Some addr_writer_context_target) (Some Example.encoded)
          (Z.of_nat (length Example.encoded)) Example.sink_no_udp_hdr
          Example.running = Ok tt s'
        ∧ pktbuf s' = pktbuf Example.running.
Proof.
  apply (send_packet_failure_releases (P := Example.riot) Example.encoded
           Example.sink_no_udp_hdr Example.running);
    [discriminate|right; left; reflexivity].
Defined.

Lemma send_completes_witness :
  (∃ s', _send_rreq (P := Example.riot) (Some Example.request)
           (Some Example.all_manet_routers)
           [(Example.encoded, Example.sink_ok);
            (Example.encoded, Example.sink_no_udp_hdr)] Example.running
         = Ok tt s')
  ∧ (∃ s', _send_rrep (P := Example.riot) (Some Example.request)
             (Some Example.all_manet_routers)
             [(Example.encoded, Example.sink_ok);
              (Example.encoded, Example.sink_no_udp_hdr)] Example.running
           = Ok tt s').
Proof.
  apply (send_completes (P := Example.riot) Example.request
           Example.all_manet_routers
           [(Example.encoded, Example.sink_ok);
            (Example.encoded, Example.sink_no_udp_hdr)] Example.running).
  - reflexivity.
  - repeat (apply Forall_cons; split); [..|by apply Forall_nil];
      (split; [discriminate|]).
    + right; right; right. by eexists.
    + right; left. reflexivity.
Defined.

Lemma reply_value_decodes_witness :
  @reply_value Example.riot = 2 ^ 32 - 134
  ∧ 2 ^ 31 ≤ @reply_value Example.riot < 2 ^ 32.
Proof.
  apply (reply_value_decodes (P := Example.riot)). cbn. lia.
Defined.

Lemma send_turn_frees_block_witness :
  let r := _event_loop_body (P := Example.riot) Example.send_rreq_msg
             Example.flush_one Example.queued in
  heap Example.queued !! 1%positive
  = Some {| pkt := Example.request; next_hop := Example.all_manet_routers |}
  ∧ heap (final r) = delete 1%positive (heap Example.queued)
  ∧ ∀ s', r = Ok tt s' →
          packet_data (_writer_context s') = Example.request
          ∧ target_addr (_writer_context s') = Example.all_manet_routers
          ∧ wtype (_writer_context s') = 10.
Proof.
  intros r.
  assert (Hp : heap Example.queued !! 1%positive
               = Some {| pkt := Example.request;
                         next_hop := Example.all_manet_routers |})
    by (vm_compute; reflexivity).
  split; [exact Hp|].
  exact (send_turn_frees_block (P := Example.riot) Example.send_rreq_msg
           Example.flush_one 1%positive _ Example.queued eq_refl Hp
           (or_introl eq_refl)).
Defined.

Lemma request_reaches_writer_witness :
  let s2 := final (_event_loop_body (P := Example.riot) Example.send_rreq_msg
                     Example.flush_one Example.queued) in
  last (trace Example.queued)
  = Some (EvMsgSend 0x9000 (HeapPtr 1) (_pid Example.running))
  ∧ heap s2 = heap Example.running
  ∧ packet_data (_writer_context s2) = Example.request
  ∧ wtype (_writer_context s2) = 10
  ∧ target_addr (_writer_context s2) = Example.all_manet_routers.
Proof.
  intros s2.
  apply (request_reaches_writer (P := Example.riot) Example.request
           Example.all_manet_routers (Example.send_ok 3) Example.flush_one
           5 0x9000 10 Example.running Example.queued s2).
  - left. split; [vm_compute; reflexivity|]. split; reflexivity.
  - vm_compute. reflexivity.
Defined.

Lemma discovery_reaches_writer_witness :
  let s1 := final (aodvv2_find_route (P := Example.riot)
                     Example.target_2001_db8_2 (Example.send_ok 3)
                     Example.running) in
  let s2 := final (_event_loop_body (P := Example.riot) Example.send_rreq_msg
                     Example.flush_one s1) in
  heap s2 = heap Example.running
  ∧ rreqtable_added (trace s1)
    = rreqtable_added (trace Example.running)
      ++ [packet_data (_writer_context s2)]
  ∧ orig_node (packet_data (_writer_context s2))
    = {| addr := _na_netif Example.running; metric := 0;
         seqnum := aodvv2_seqnum_get (seqnum_st Example.running) |}
  ∧ targ_node (packet_data (_writer_context s2))
    = {| addr := ipv6_addr_to_netaddr Example.target_2001_db8_2; metric := 0;
         seqnum := 0 |}
  ∧ wtype (_writer_context s2) = 10
  ∧ target_addr (_writer_context s2) = Example.all_manet_routers.
Proof.
  intros s1 s2.
  apply (discovery_reaches_writer (P := Example.riot) Example.target_2001_db8_2
           (Example.send_ok 3) Example.flush_one 5 Example.running s1 s2).
  - vm_compute. reflexivity.
  - vm_compute. reflexivity.
Defined.

Lemma reception_loop_releases_each_packet_witness :
  let inbox := [(Example.get_msg, Example.no_oracle);
                (Example.rcv_msg, Example.no_oracle);
                (Example.unknown_msg, Example.no_oracle)] in
  ∃ s', event_loop_turns (P := Example.riot) inbox Example.receiving = Ok tt s'
        ∧ released (trace s') = released (trace Example.receiving) ++ [Example.inbound]
        ∧ pktbuf s' = foldl release_snip (pktbuf Example.receiving) Example.inbound
        ∧ heap s' = heap Example.receiving
        ∧ _writer_context s' = _writer_context Example.receiving
        ∧ _pid s' = _pid Example.receiving.
Proof.
  intros inbox.
  apply (reception_loop_releases_each_packet (P := Example.riot) inbox
           Example.receiving).
  repeat (apply Forall_cons; split); [..|by apply Forall_nil].
  - right; left. reflexivity.
  - left. split; [reflexivity|].
    exists Example.payload_snip,
      [Example.udp_snip; Example.ipv6_snip; Example.netif_snip],
      Example.encoded,
      {| src := Example.target_2001_db8_2; dst := Example.all_manet_routers |}.
    repeat split; reflexivity.
  - right; right; right.
    repeat (apply not_elem_of_cons; split; [by vm_compute|]).
    apply not_elem_of_nil.
Defined.

Lemma init_success_binds_engine_witness :
  ∃ s', aodvv2_init (P := Example.riot) (Some Example.netif7) Example.init_ok
          (Example.boot 3 1) = Ok 3 s'
        ∧ s' = Example.running
        ∧ _pid s' = 3
        ∧ _netif s' = Some Example.netif7
        ∧ netreg s' = {| demux_ctx := 269; target_pid := 3 |}
        ∧ sendPacket (target (_writer_context s')) = Some cb_send_packet.
Proof.
  destruct (init_success_binds_engine (P := Example.riot) Example.netif7
              Example.init_ok (Example.boot 3 1))
    as (s' & Hrun & Hpid & Hnif & _ & Hreg & _ & Htarget & _);
    [reflexivity|cbn; lia|cbn; lia|].
  exists s'. split; [exact Hrun|].
  split; [unfold Example.running; by rewrite Hrun|].
  split; [exact Hpid|]. split; [exact Hnif|]. split; [exact Hreg|].
  by rewrite Htarget.
Defined.

Lemma init_address_failure_leaves_thread_witness :
  ∃ s', aodvv2_init (P := Example.riot) (Some Example.netif7)
          Example.init_no_addr (Example.boot 3 1) = Ok (-1) s'
        ∧ _pid s' = 3
        ∧ sendPacket (target (_writer_context s')) = None
        ∧ (∀ n' o', aodvv2_init (Some n') o' s' = Ok 3 s').
Proof.
  destruct (init_address_failure_leaves_thread (P := Example.riot)
              Example.netif7 Example.init_no_addr (Example.boot 3 1))
    as (s' & Hrun & Hpid & _ & _ & _ & _ & Hctx & _ & _ & Hlater);
    [reflexivity|cbn; lia|discriminate|reflexivity|].
  exists s'. split; [exact Hrun|]. split; [exact Hpid|].
  split; [by rewrite Hctx|exact Hlater].
Defined.

Lemma init_then_first_discovery_witness :
  ∃ s1 r s2 pd,
    aodvv2_init (P := Example.riot) (Some Example.netif7) Example.init_ok
      (Example.boot 3 5) = Ok 3 s1
    ∧ aodvv2_find_route Example.target_2001_db8_2 (Example.send_ok 3) s1
      = Ok r s2
    ∧ rreqtable_added (trace s2) = [pd]
    ∧ Example._addr (addr (orig_node pd)) = Example.target_2001_db8_2
    ∧ seqnum (orig_node pd) = 1
    ∧ seqnum_st s2 = 2.
Proof.
  destruct (init_then_first_discovery (P := Example.riot) Example.netif7
              Example.init_ok Example.target_2001_db8_2 (Example.send_ok 3)
              (Example.boot 3 5))
    as (s1 & r & s2 & pd & Hinit & Hfind & Hadded & Haddr & Hsq & Hst & _);
    [reflexivity|cbn; lia|cbn; lia|].
  exists s1, r, s2, pd. split; [exact Hinit|]. split; [exact Hfind|].
  split; [exact Hadded|].
  split; [exact (f_equal Example._addr Haddr)|].
  split; [exact Hsq|exact Hst].
Defined.
